(** * Nakshatra Stock Analyst: the signal simulation and the prediction scoring

    A shallow embedding of [NakshatraStockAnalyzer.simulate_nakshatra_data]
    and [NakshatraStockAnalyzer.generate_prediction] of [app.py], and the
    properties the specification states about them.

    Python integers are [Z]; [%] with a positive divisor is [Z.modulo].
    Python strings are [string] (byte strings: a non-ASCII character is
    its UTF-8 bytes).  A dict with a fixed set of keys is a record.  A
    Python float is a [pyfloat]: a real number, or one of the three special
    values of IEEE 754; arithmetic on the real numbers is exact (rounding
    and overflow of binary64 are not modelled). *)

From Stdlib Require Import ZArith List String Ascii Bool Lia DecimalString.
From Stdlib Require Import Reals Lra.
Import ListNotations.

Open Scope string_scope.
Open Scope Z_scope.

(** ** Option as the error monad: [None] is a raised exception *)

Definition bind {A B : Type} (m : option A) (k : A -> option B) : option B :=
  match m with
  | Some a => k a
  | None => None
  end.

Notation "x <- m ;; k" := (bind m (fun x => k))
  (at level 61, m at next level, right associativity).

(** ** Python sequences *)

Module Py.

(** [len(l)] *)
Definition len {A : Type} (l : list A) : Z := Z.of_nat (List.length l).

(** [l[i]]: a negative index counts from the end, an index out of range
    raises [IndexError]. *)
Definition index {A : Type} (l : list A) (i : Z) : option A :=
  let j := if i <? 0 then i + len l else i in
  if j <? 0 then None else nth_error l (Z.to_nat j).

(** [s[:n]] on a string *)
Definition prefix (n : nat) (s : string) : string := substring 0 n s.

End Py.

(** ** The calendar: [datetime.date], [str], [strptime], [tm_yday] *)

Module Calendar.

Record date : Type := mkdate { year : Z; month : Z; day : Z }.

Definition is_leap (y : Z) : bool :=
  (y mod 4 =? 0) && (negb (y mod 100 =? 0) || (y mod 400 =? 0)).

Definition days_in_month (y m : Z) : Z :=
  if m =? 2 then (if is_leap y then 29 else 28)
  else if (m =? 4) || (m =? 6) || (m =? 9) || (m =? 11) then 30
  else 31.

(** The dates [datetime.date] can hold: years 1 to 9999. *)
Definition valid_date (d : date) : bool :=
  (1 <=? year d) && (year d <=? 9999) &&
  (1 <=? month d) && (month d <=? 12) &&
  (1 <=? day d) && (day d <=? days_in_month (year d) (month d)).

(** Days of the year before the first of month [m]: the table of the
    [datetime] module, and one more day after February of a leap year. *)
Definition days_before_month (y m : Z) : Z :=
  match m with
  | 1 => 0 | 2 => 31 | 3 => 59 | 4 => 90 | 5 => 120 | 6 => 151
  | 7 => 181 | 8 => 212 | 9 => 243 | 10 => 273 | 11 => 304 | _ => 334
  end + (if (2 <? m) && is_leap y then 1 else 0).

(** [d.timetuple().tm_yday] *)
Definition tm_yday (d : date) : Z :=
  days_before_month (year d) (month d) + day d.

Definition digit_char (k : Z) : ascii := ascii_of_nat (Z.to_nat (48 + k)).

Definition digit_val (c : ascii) : option Z :=
  let n := Z.of_nat (nat_of_ascii c) in
  if (48 <=? n) && (n <=? 57) then Some (n - 48) else None.

(** [str(d)] of a [datetime.date]: the ISO form [YYYY-MM-DD], each field
    padded with zeros. *)
Definition isoformat (d : date) : string :=
  let y := year d in
  let m := month d in
  let a := day d in
  String (digit_char (y / 1000)) (String (digit_char (y / 100 mod 10))
  (String (digit_char (y / 10 mod 10)) (String (digit_char (y mod 10))
  (String "-" (String (digit_char (m / 10)) (String (digit_char (m mod 10))
  (String "-" (String (digit_char (a / 10)) (String (digit_char (a mod 10))
   EmptyString))))))))).

(** [datetime.strptime(s, '%Y-%m-%d')] on the fixed-width form, the only
    one [isoformat] produces: four, two and two digits, a calendar date.
    Anything else raises [ValueError]. *)
Definition strptime (s : string) : option date :=
  match list_ascii_of_string s with
  | [y1; y2; y3; y4; s1; m1; m2; s2; d1; d2] =>
      if Ascii.eqb s1 "-" && Ascii.eqb s2 "-" then
        a <- digit_val y1 ;; b <- digit_val y2 ;;
        c <- digit_val y3 ;; e <- digit_val y4 ;;
        f <- digit_val m1 ;; g <- digit_val m2 ;;
        h <- digit_val d1 ;; i <- digit_val d2 ;;
        let r := mkdate (1000 * a + 100 * b + 10 * c + e)
                        (10 * f + g) (10 * h + i) in
        if valid_date r then Some r else None
      else None
  | _ => None
  end.

End Calendar.

(** ** The analyzer: signal simulation *)

Record Transition : Type := mkTransition
  { tr_time : string; tr_from : string; tr_to : string }.

Record Signal : Type := mkSignal
  { current_nakshatra : string;
    nakshatra_index : Z;
    transitions : list Transition;
    moon_phase : string }.

Definition nakshatras : list string :=
  [ "Ashwini"; "Bharani"; "Krittika"; "Rohini"; "Mrigashira"; "Ardra";
    "Punarvasu"; "Pushya"; "Ashlesha"; "Magha"; "Purva Phalguni";
    "Uttara Phalguni"; "Hasta"; "Chitra"; "Swati"; "Vishakha"; "Anuradha";
    "Jyeshtha"; "Mula"; "Purva Ashadha"; "Uttara Ashadha"; "Shravana";
    "Dhanishta"; "Shatabhisha"; "Purva Bhadrapada"; "Uttara Bhadrapada";
    "Revati" ].

(** The argument of [simulate_nakshatra_data]: a [datetime.date], or a
    [datetime.datetime], whose [str] is the date, a space and the clock. *)
Inductive DateArg : Type :=
| ADate (d : Calendar.date)
| ADatetime (d : Calendar.date) (clock : string).

(** [str(date)] *)
Definition str (date : DateArg) : string :=
  match date with
  | ADate d => Calendar.isoformat d
  | ADatetime d clock => Calendar.isoformat d ++ " " ++ clock
  end.

Definition simulate_nakshatra_data (date : DateArg) : option Signal :=
  date_obj <- Calendar.strptime (Py.prefix 10 (str date)) ;;
  let day_of_year := Calendar.tm_yday date_obj in
  let nakshatra_index := day_of_year mod 27 in
  let transitions : list Transition := [] in
  transitions <-
    (if day_of_year mod 3 =? 0 then
       f <- Py.index nakshatras nakshatra_index ;;
       t <- Py.index nakshatras ((nakshatra_index + 1) mod 27) ;;
       Some (transitions ++ [mkTransition "10:30" f t])%list
     else Some transitions) ;;
  transitions <-
    (if day_of_year mod 4 =? 0 then
       f <- Py.index nakshatras ((nakshatra_index + 1) mod 27) ;;
       t <- Py.index nakshatras ((nakshatra_index + 2) mod 27) ;;
       Some (transitions ++ [mkTransition "14:15" f t])%list
     else Some transitions) ;;
  cur <- Py.index nakshatras nakshatra_index ;;
  Some (mkSignal cur nakshatra_index transitions
          (if day_of_year mod 30 <? 15 then "Waxing" else "Waning")).

(** The calendar date of the argument. *)
Definition date_of (date : DateArg) : Calendar.date :=
  match date with
  | ADate d => d
  | ADatetime d _ => d
  end.

(** The name at position [i] of the list of names. *)
Definition label (i : Z) : string := nth (Z.to_nat i) nakshatras "".

(** The two events a signal can hold, for a base index [idx]. *)
Definition event_1030 (idx : Z) : Transition :=
  mkTransition "10:30" (label idx) (label ((idx + 1) mod 27)).

Definition event_1415 (idx : Z) : Transition :=
  mkTransition "14:15" (label ((idx + 1) mod 27)) (label ((idx + 2) mod 27)).

Definition is_event (idx : Z) (t : Transition) : bool :=
  ((tr_time t =? "10:30") && (tr_from t =? label idx) &&
   (tr_to t =? label ((idx + 1) mod 27)))%string
  || ((tr_time t =? "14:15") && (tr_from t =? label ((idx + 1) mod 27)) &&
      (tr_to t =? label ((idx + 2) mod 27)))%string.

(** A signal as the data model describes it. *)
Definition valid_signal (s : Signal) : bool :=
  (0 <=? nakshatra_index s) && (nakshatra_index s <? 27) &&
  (current_nakshatra s =? label (nakshatra_index s))%string &&
  (Nat.leb (List.length (transitions s)) 2) &&
  forallb (is_event (nakshatra_index s)) (transitions s) &&
  ((moon_phase s =? "Waxing") || (moon_phase s =? "Waning"))%string.

(** ** Python floats *)

Module PyFloat.

Local Open Scope R_scope.

Inductive pyfloat : Type :=
| Fin (x : R)
| PInf
| NInf
| NaN.

Definition Rltb (x y : R) : bool := if Rlt_dec x y then true else false.
Definition Reqb (x y : R) : bool := if Req_dec_T x y then true else false.

(** An infinity of the sign of [x] ([x] is not zero). *)
Definition signed_inf (x : R) : pyfloat := if Rltb 0 x then PInf else NInf.

Definition of_int (z : Z) : pyfloat := Fin (IZR z).

Definition isnan (x : pyfloat) : bool :=
  match x with NaN => true | _ => false end.

Definition fneg (x : pyfloat) : pyfloat :=
  match x with
  | Fin a => Fin (- a)
  | PInf => NInf
  | NInf => PInf
  | NaN => NaN
  end.

Definition fabs (x : pyfloat) : pyfloat :=
  match x with
  | Fin a => Fin (Rabs a)
  | PInf | NInf => PInf
  | NaN => NaN
  end.

Definition fadd (x y : pyfloat) : pyfloat :=
  match x, y with
  | NaN, _ | _, NaN => NaN
  | Fin a, Fin b => Fin (a + b)
  | PInf, NInf | NInf, PInf => NaN
  | PInf, _ | _, PInf => PInf
  | NInf, _ | _, NInf => NInf
  end.

Definition fsub (x y : pyfloat) : pyfloat := fadd x (fneg y).

Definition fmul (x y : pyfloat) : pyfloat :=
  match x, y with
  | NaN, _ | _, NaN => NaN
  | Fin a, Fin b => Fin (a * b)
  | Fin a, i | i, Fin a =>
      if Reqb a 0 then NaN else if Rltb 0 a then i else fneg i
  | PInf, PInf | NInf, NInf => PInf
  | PInf, NInf | NInf, PInf => NInf
  end.

(** Division of numpy: a zero divisor gives an infinity or [NaN], it does
    not raise.  The zero of [R] has no sign: it divides as [+0.0]. *)
Definition fdiv (x y : pyfloat) : pyfloat :=
  match x, y with
  | NaN, _ | _, NaN => NaN
  | Fin a, Fin b =>
      if Reqb b 0 then (if Reqb a 0 then NaN else signed_inf a)
      else Fin (a / b)
  | Fin _, _ => Fin 0
  | i, Fin b => if Rltb b 0 then fneg i else i
  | _, _ => NaN
  end.

(** [x < y] and [x > y]: false as soon as one side is [NaN]. *)
Definition flt (x y : pyfloat) : bool :=
  match x, y with
  | NaN, _ | _, NaN => false
  | Fin a, Fin b => Rltb a b
  | NInf, NInf | PInf, _ => false
  | NInf, _ | _, PInf => true
  | _, NInf => false
  end.

Definition fgt (x y : pyfloat) : bool := flt y x.

(** [np.sin] *)
Definition fsin (x : pyfloat) : pyfloat :=
  match x with
  | Fin a => Fin (sin a)
  | _ => NaN
  end.

(** [np.clip(x, lo, hi)] with finite bounds: [minimum(maximum(x, lo), hi)],
    and [NaN] stays [NaN]. *)
Definition clip (x : pyfloat) (lo hi : R) : pyfloat :=
  match x with
  | Fin a => Fin (Rmin (Rmax a lo) hi)
  | PInf => Fin hi
  | NInf => Fin (Rmin lo hi)
  | NaN => NaN
  end.

End PyFloat.
Import PyFloat.

(** ** pandas: a column of floats *)

Module Series.

Definition Series : Type := list pyfloat.

(** [s.shift(k)]: [k] missing values in front, the length kept. *)
Definition shift (k : nat) (s : Series) : Series :=
  firstn (List.length s) (repeat NaN k ++ s)%list.

(** [s.pct_change(k)], that is [s / s.shift(k) - 1].  (pandas first fills
    the missing cells of [s] from the cell before; a column of numbers has
    none.) *)
Definition pct_change (k : nat) (s : Series) : Series :=
  map (fun p => fsub (fdiv (fst p) (snd p)) (Fin 1)) (combine s (shift k s)).

(** [s.dropna()] *)
Definition dropna (s : Series) : Series :=
  filter (fun x => negb (isnan x)) s.

(** [s.iloc[i]] *)
Definition iloc (s : Series) (i : Z) : option pyfloat := Py.index s i.

End Series.

(** ** The analyzer: prediction scoring *)

(** A row of the price table.  The columns hold numbers: a table with
    missing cells is outside the model. *)
Record OHLC : Type := mkOHLC { Open : R; High : R; Low : R; Close : R }.

Definition DataFrame : Type := list OHLC.

(** [stock_data['Close']] *)
Definition close_column (stock_data : DataFrame) : Series.Series :=
  map (fun r => Fin (Close r)) stock_data.

Record KeyTime : Type := mkKeyTime
  { kt_time : string; kt_expected_impact : string; kt_period : string }.

Record Prediction : Type := mkPrediction
  { direction : string;
    confidence : pyfloat;
    key_times : list KeyTime;
    reasoning : string }.

(** [str(n)] of an integer *)
Definition str_int (n : Z) : string := NilZero.string_of_int (Z.to_int n).

(** The body of the [try] block: [None] is an exception raised inside. *)
Definition recent_trend_try (stock_data : DataFrame) : option pyfloat :=
  let pct5 := Series.dropna (Series.pct_change 5 (close_column stock_data)) in
  if Py.len pct5 >? 0 then
    Series.iloc pct5 (-1)
  else
    let pct1 := Series.dropna (Series.pct_change 1 (close_column stock_data)) in
    if Py.len pct1 >? 0 then Series.iloc pct1 (-1) else Some (Fin 0).

(** [recent_trend] after the [try ... except Exception] *)
Definition recent_trend (stock_data : DataFrame) : pyfloat :=
  match recent_trend_try stock_data with
  | Some r => r
  | None => Fin 0
  end.

Definition nakshatra_factor (nakshatra_data : Signal) : pyfloat :=
  fsin (fdiv (fmul (of_int (nakshatra_index nakshatra_data * 2)) (Fin PI))
             (of_int 27)).

Definition transition_factor (nakshatra_data : Signal) : pyfloat :=
  fmul (of_int (Py.len (transitions nakshatra_data))) (Fin 0.12).

Definition combined_score (stock_data : DataFrame) (nakshatra_data : Signal)
  : pyfloat :=
  fadd (fadd (fmul (recent_trend stock_data) (Fin 0.45))
             (fmul (nakshatra_factor nakshatra_data) (Fin 0.28)))
       (fmul (transition_factor nakshatra_data) (Fin 0.27)).

Definition key_time_of (nakshatra_data : Signal) (transition : Transition)
  : KeyTime :=
  let impact :=
    if nakshatra_index nakshatra_data mod 3 =? 0 then "Volatile"
    else "Moderate" in
  mkKeyTime (tr_time transition) impact
            (tr_from transition ++ " → " ++ tr_to transition).

Section Scoring.

(** The format [:.2%] of a float, as [format] of Python prints it. *)
Variable format_pct2 : pyfloat -> string.

Definition generate_prediction
    (stock_data : option DataFrame) (nakshatra_data : Signal) : Prediction :=
  match stock_data with
  | None => mkPrediction "NEUTRAL ➡️" (Fin 50) [] "Insufficient data"
  | Some stock_data =>
      if Py.len stock_data <? 2 then
        mkPrediction "NEUTRAL ➡️" (Fin 50) [] "Insufficient data"
      else
        let recent_trend := recent_trend stock_data in
        let combined_score := combined_score stock_data nakshatra_data in
        let direction :=
          if fgt combined_score (Fin 0.015) then "BULLISH 📈"
          else if flt combined_score (Fin (-0.015)) then "BEARISH 📉"
          else "NEUTRAL ➡️" in
        let raw_conf :=
          fadd (fmul (fabs combined_score) (of_int 1000)) (of_int 50) in
        let confidence := clip raw_conf 50 90 in
        let key_times :=
          map (key_time_of nakshatra_data) (transitions nakshatra_data) in
        let reasoning :=
          "Recent trend: " ++ format_pct2 recent_trend ++
          ", Nakshatra: " ++ current_nakshatra nakshatra_data ++
          ", Transitions: " ++
          str_int (Py.len (transitions nakshatra_data)) in
        mkPrediction direction confidence key_times reasoning
  end.

End Scoring.

(** ** The analyzer: the ticker table and the data fetch *)

(** A dict of strings, in insertion order. *)
Definition Dict : Type := list (string * string).

(** [d.get(key, default)] *)
Fixpoint dict_get (d : Dict) (key default : string) : string :=
  match d with
  | [] => default
  | (k, v) :: rest => if (k =? key)%string then v else dict_get rest key default
  end.

Definition script_mapping : Dict :=
  [ ("NIFTY 50", "^NSEI");
    ("BANK NIFTY", "^NSEBANK");
    ("RELIANCE", "RELIANCE.NS");
    ("TCS", "TCS.NS");
    ("INFOSYS", "INFY.NS");
    ("HDFC BANK", "HDFCBANK.NS");
    ("TATA MOTORS", "TATAMOTORS.NS");
    ("WIPRO", "WIPRO.NS");
    ("ICICI BANK", "ICICIBANK.NS");
    ("SBI", "SBIN.NS");
    ("AXIS BANK", "AXISBANK.NS") ].

(** What a call of [yf.download] does: it raises an exception with a
    message, or returns [None], or returns a table, which may have no row. *)
Inductive Download : Type :=
| Raises (e : string)
| ReturnsNone
| Returns (data : DataFrame).

(** [data.empty] *)
Definition empty (data : DataFrame) : bool :=
  match data with
  | [] => true
  | _ :: _ => false
  end.

(** [needle in hay] on strings *)
Fixpoint contains (needle hay : string) : bool :=
  if String.prefix needle hay then true
  else match hay with
       | EmptyString => false
       | String _ rest => contains needle rest
       end.

(** The style class of the prediction box in [main]. *)
Definition direction_class (direction : string) : string :=
  if contains "BULLISH" direction then "prediction-positive"
  else if contains "BEARISH" direction then "prediction-negative"
  else "prediction-neutral".

Section Main.

(** [yf.download(tickers=..., period=..., interval=..., progress=False,
    threads=False)], the market-data provider. *)
Variable download : string -> string -> string -> Download.

(** The format [:.2%] of a float. *)
Variable format_pct2 : pyfloat -> string.

(** [get_stock_data]: the table or [None], and the warnings it shows with
    [st.warning].  ([rename_axis] names the index and leaves the rows as
    they are; the cache of [st.cache_data] is not modelled.) *)
Definition get_stock_data (script period interval : string)
  : option DataFrame * list string :=
  let ticker := dict_get script_mapping script script in
  match download ticker period interval with
  | Raises e =>
      (None, ["Failed to download data for " ++ ticker ++ ": " ++ e])
  | ReturnsNone => (None, [])
  | Returns data => if empty data then (None, []) else (Some data, [])
  end.

(** What the "Run Analysis" branch of [main] computes before it renders. *)
Record Analysis : Type := mkAnalysis
  { an_stock_data : option DataFrame;
    an_warnings : list string;
    an_nakshatra_data : Signal;
    an_prediction : Prediction;
    an_direction_class : string }.

(** The three calls of the "Run Analysis" branch, and the style class of
    the prediction box; [None] is an exception that reaches the caller. *)
Definition run_analysis
    (selected_script period interval : string) (analysis_date : Calendar.date)
  : option Analysis :=
  let fetched := get_stock_data selected_script period interval in
  let stock_data := fst fetched in
  nakshatra_data <- simulate_nakshatra_data (ADate analysis_date) ;;
  let prediction :=
    generate_prediction format_pct2 stock_data nakshatra_data in
  Some (mkAnalysis stock_data (snd fetched) nakshatra_data prediction
          (direction_class (direction prediction))).

End Main.

(** ** The quantities of the specification *)

(** [close[i]] of a price table (0 outside it). *)
Definition close_at (stock_data : DataFrame) (i : nat) : R :=
  nth i (map Close stock_data) 0%R.

(** The combined score as the specification writes it, on real numbers:
    [recentTrend*0.45 + sin(index*2π/27)*0.28 + n*0.12*0.27]. *)
Definition combinedScore (recentTrend : R) (index n : Z) : R :=
  (recentTrend * 0.45 + sin (IZR index * 2 * PI / 27) * 0.28 +
   IZR n * 0.12 * 0.27)%R.

(** [clamp(x, lo, hi)] *)
Definition clamp (x lo hi : R) : R := Rmin (Rmax x lo) hi.

(** The prediction of the insufficient-data branch. *)
Definition insufficient : Prediction :=
  mkPrediction "NEUTRAL ➡️" (Fin 50) [] "Insufficient data".

(** ** Sample inputs *)

Definition bar (c : R) : OHLC := mkOHLC c c c c.

Definition two_bars : DataFrame := [bar 100; bar 102].

Definition six_bars : DataFrame :=
  [bar 100; bar 101; bar 99; bar 103; bar 104; bar 110].

(** The signal of 27 January 2024. *)
Definition jan27_signal : Signal :=
  mkSignal "Ashwini" 0 [event_1030 0] "Waning".

Definition two_decimals (x : pyfloat) : string := "2.00%".

Definition zero_bars : DataFrame := [bar 0; bar 0; bar 0].

Definition surge_bars : DataFrame := [bar 100; bar 170].

Definition crash_bars : DataFrame := [bar 100; bar 10].

Definition halt_bars : DataFrame :=
  [bar 5; bar 0; bar 1; bar 1; bar 1; bar 6; bar 0].

Definition gap_bars : DataFrame :=
  [bar 0; bar 1; bar 1; bar 1; bar 1; bar 2].

(** A provider that is down, and one that knows a single symbol. *)
Definition failing_provider (ticker period interval : string) : Download :=
  Raises "No data found".

Definition nifty_provider (ticker period interval : string) : Download :=
  if (ticker =? "^NSEI")%string then Returns two_bars else Returns [].

(** * Properties *)

(** ** The calendar *)

Module CalendarFacts.
Import Calendar.

Lemma digit_val_char (k : Z) :
  0 <= k <= 9 -> digit_val (digit_char k) = Some k.
Proof.
  intros H.
  assert (E : k = 0 \/ k = 1 \/ k = 2 \/ k = 3 \/ k = 4 \/
              k = 5 \/ k = 6 \/ k = 7 \/ k = 8 \/ k = 9) by lia.
  repeat (destruct E as [-> | E]; [reflexivity |]).
  subst k; reflexivity.
Qed.

Lemma valid_date_bounds (d : date) :
  valid_date d = true ->
  1 <= year d <= 9999 /\ 1 <= month d <= 12 /\
  1 <= day d <= days_in_month (year d) (month d).
Proof.
  unfold valid_date; intros H.
  repeat (apply andb_prop in H; destruct H as [H ?]).
  lia.
Qed.

Lemma days_in_month_bounds (y m : Z) : 28 <= days_in_month y m <= 31.
Proof.
  unfold days_in_month.
  destruct (m =? 2); [destruct (is_leap y); lia |].
  destruct ((m =? 4) || (m =? 6) || (m =? 9) || (m =? 11)); lia.
Qed.

Lemma four_digits (y : Z) :
  1000 * (y / 1000) + 100 * (y / 100 mod 10) + 10 * (y / 10 mod 10) +
  y mod 10 = y.
Proof.
  pose proof (Z.div_mod y 10 ltac:(lia)) as E1.
  pose proof (Z.div_mod (y / 10) 10 ltac:(lia)) as E2.
  pose proof (Z.div_mod (y / 100) 10 ltac:(lia)) as E3.
  replace (y / 10 / 10) with (y / 100) in E2
    by (rewrite Z.div_div by lia; reflexivity).
  replace (y / 100 / 10) with (y / 1000) in E3
    by (rewrite Z.div_div by lia; reflexivity).
  lia.
Qed.

Lemma two_digits (m : Z) : 10 * (m / 10) + m mod 10 = m.
Proof. pose proof (Z.div_mod m 10 ltac:(lia)); lia. Qed.

Lemma digit_range_div (x b hi : Z) :
  0 < b -> 0 <= x < b * (hi + 1) -> 0 <= x / b <= hi.
Proof.
  intros Hb Hx; split.
  - apply Z.div_pos; lia.
  - apply Z.lt_succ_r, Z.div_lt_upper_bound; lia.
Qed.

Lemma digit_range_mod (x : Z) : 0 <= x mod 10 <= 9.
Proof. pose proof (Z.mod_pos_bound x 10 ltac:(lia)); lia. Qed.

(** Parsing the first ten characters of [str] gives the date back. *)
Lemma strptime_str (date : DateArg) (d : Calendar.date) :
  valid_date d = true ->
  (date = ADate d \/ exists clock, date = ADatetime d clock) ->
  strptime (Py.prefix 10 (str date)) = Some d.
Proof.
  intros V Hd.
  assert (P : Py.prefix 10 (str date) = isoformat d).
  { destruct Hd as [-> | [clock ->]]; reflexivity. }
  rewrite P; clear P Hd.
  pose proof (valid_date_bounds d V) as (Hy & Hm & Ha).
  pose proof (days_in_month_bounds (year d) (month d)) as Hb.
  unfold strptime, isoformat; cbn [list_ascii_of_string].
  change (Ascii.eqb "-" "-") with true; cbn [andb].
  rewrite (digit_val_char (year d / 1000)) by (apply digit_range_div; lia).
  rewrite (digit_val_char (month d / 10)) by (apply digit_range_div; lia).
  rewrite (digit_val_char (day d / 10)) by (apply digit_range_div; lia).
  rewrite !digit_val_char by apply digit_range_mod.
  cbn [bind].
  rewrite four_digits, !two_digits.
  destruct d as [y m a]; cbn [year month day] in *.
  rewrite V; reflexivity.
Qed.

End CalendarFacts.

(** ** The signal simulation *)

Lemma index_nakshatras (i : Z) :
  0 <= i < 27 -> Py.index nakshatras i = Some (label i).
Proof.
  intros H. unfold Py.index, label.
  destruct (i <? 0) eqn:E; [lia |]. rewrite E.
  apply nth_error_nth'. change (List.length nakshatras) with 27%nat. lia.
Qed.

(** What [simulate_nakshatra_data] returns on a calendar date, in closed
    form. *)
Lemma simulate_closed_form (date : DateArg) :
  Calendar.valid_date (date_of date) = true ->
  let doy := Calendar.tm_yday (date_of date) in
  let idx := doy mod 27 in
  simulate_nakshatra_data date =
  Some (mkSignal (label idx) idx
          ((if doy mod 3 =? 0 then [event_1030 idx] else []) ++
           (if doy mod 4 =? 0 then [event_1415 idx] else []))%list
          (if doy mod 30 <? 15 then "Waxing" else "Waning")).
Proof.
  intros V doy idx. unfold simulate_nakshatra_data.
  rewrite (CalendarFacts.strptime_str date (date_of date) V)
    by (destruct date; [left | right; eexists]; reflexivity).
  cbn [bind]. fold doy. fold idx.
  assert (H0 : 0 <= idx < 27) by (apply Z.mod_pos_bound; lia).
  assert (H1 : 0 <= (idx + 1) mod 27 < 27) by (apply Z.mod_pos_bound; lia).
  assert (H2 : 0 <= (idx + 2) mod 27 < 27) by (apply Z.mod_pos_bound; lia).
  rewrite !(index_nakshatras idx H0), !(index_nakshatras _ H1),
    !(index_nakshatras _ H2).
  destruct (doy mod 3 =? 0), (doy mod 4 =? 0); reflexivity.
Qed.

Lemma tm_yday_bounds (d : Calendar.date) :
  Calendar.valid_date d = true -> 1 <= Calendar.tm_yday d <= 366.
Proof.
  intros V. pose proof (CalendarFacts.valid_date_bounds d V) as (_ & Hm & Ha).
  clear V. destruct d as [y m a].
  unfold Calendar.tm_yday, Calendar.days_before_month, Calendar.days_in_month
    in *.
  cbn [Calendar.year Calendar.month Calendar.day] in *.
  assert (E : m = 1 \/ m = 2 \/ m = 3 \/ m = 4 \/ m = 5 \/ m = 6 \/ m = 7 \/
              m = 8 \/ m = 9 \/ m = 10 \/ m = 11 \/ m = 12) by lia.
  destruct (Calendar.is_leap y);
    repeat (destruct E as [-> | E];
            [cbn -[Z.add Z.le Z.lt] in *; lia |]);
    subst m; cbn -[Z.add Z.le Z.lt] in *; lia.
Qed.

(** C6: on every calendar date the simulation returns a signal whose index
    is the day of the year modulo 27, a number from 0 to 26; whose current
    label is the name at that index in the list of 27 names; and whose moon
    phase is Waxing when the day of the year modulo 30 is below 15 and
    Waning otherwise. *)
Theorem simulate_index_label_phase (date : DateArg) :
  Calendar.valid_date (date_of date) = true ->
  let doy := Calendar.tm_yday (date_of date) in
  exists s : Signal,
    simulate_nakshatra_data date = Some s /\
    nakshatra_index s = doy mod 27 /\
    0 <= nakshatra_index s < 27 /\
    List.length nakshatras = 27%nat /\
    nth_error nakshatras (Z.to_nat (nakshatra_index s)) =
      Some (current_nakshatra s) /\
    (doy mod 30 < 15 -> moon_phase s = "Waxing") /\
    (15 <= doy mod 30 -> moon_phase s = "Waning").
Proof.
  intros V doy. eexists. split; [apply simulate_closed_form, V |].
  cbn [nakshatra_index current_nakshatra moon_phase]. fold doy.
  assert (H0 : 0 <= doy mod 27 < 27) by (apply Z.mod_pos_bound; lia).
  repeat split; try lia.
  - unfold label. apply nth_error_nth'.
    change (List.length nakshatras) with 27%nat. lia.
  - intros H. destruct (doy mod 30 <? 15) eqn:E; [reflexivity | lia].
  - intros H. destruct (doy mod 30 <? 15) eqn:E; [lia | reflexivity].
Qed.

Lemma simulate_index_label_phase_witness :
  exists s : Signal,
    simulate_nakshatra_data (ADate (Calendar.mkdate 2024 1 12)) = Some s /\
    nakshatra_index s = 12 /\ current_nakshatra s = "Hasta" /\
    moon_phase s = "Waxing".
Proof.
  destruct (simulate_index_label_phase (ADate (Calendar.mkdate 2024 1 12))
              eq_refl) as (s & E & Hi & _ & _ & Hl & Hw & _).
  exists s. split; [exact E |]. split; [exact Hi |].
  split.
  - assert (Hi' : nakshatra_index s = 12) by exact Hi.
    rewrite Hi' in Hl. injection Hl as Hl. symmetry; exact Hl.
  - apply Hw. reflexivity.
Defined.

Lemma events_differ (idx : Z) : event_1030 idx <> event_1415 idx.
Proof. unfold event_1030, event_1415. intros H. discriminate H. Qed.

(** C5: on every calendar date the simulated signal holds zero, one or two
    transitions; the 10:30 event, from the name at the index to the name at
    index + 1 modulo 27, is among them exactly when the day of the year is a
    multiple of 3; the 14:15 event, from the name at index + 1 to the name at
    index + 2 modulo 27, exactly when it is a multiple of 4; there is no
    other event; and when both are present the 10:30 event comes first. *)
Theorem simulate_transitions (date : DateArg) :
  Calendar.valid_date (date_of date) = true ->
  let doy := Calendar.tm_yday (date_of date) in
  exists s : Signal,
    simulate_nakshatra_data date = Some s /\
    let idx := nakshatra_index s in
    let ts := transitions s in
    (List.length ts = 0 \/ List.length ts = 1 \/ List.length ts = 2)%nat /\
    (In (event_1030 idx) ts <-> doy mod 3 = 0) /\
    (In (event_1415 idx) ts <-> doy mod 4 = 0) /\
    (forall t, In t ts -> t = event_1030 idx \/ t = event_1415 idx) /\
    (doy mod 3 = 0 -> doy mod 4 = 0 ->
     ts = [event_1030 idx; event_1415 idx]) /\
    (doy mod 3 = 0 -> doy mod 4 <> 0 -> ts = [event_1030 idx]) /\
    (doy mod 3 <> 0 -> doy mod 4 = 0 -> ts = [event_1415 idx]) /\
    (doy mod 3 <> 0 -> doy mod 4 <> 0 -> ts = []).
Proof.
  intros V doy. eexists. split; [apply simulate_closed_form, V |].
  cbn [nakshatra_index transitions]. fold doy.
  pose proof (events_differ (doy mod 27)) as D.
  destruct (Z.eqb_spec (doy mod 3) 0) as [E3 | E3];
    destruct (Z.eqb_spec (doy mod 4) 0) as [E4 | E4];
    cbn [app List.length In];
    repeat split; intros; try tauto; try lia; try congruence;
    intuition congruence.
Qed.

Lemma simulate_transitions_witness :
  exists s : Signal,
    simulate_nakshatra_data (ADate (Calendar.mkdate 2024 1 12)) = Some s /\
    transitions s =
      [event_1030 (nakshatra_index s); event_1415 (nakshatra_index s)].
Proof.
  destruct (simulate_transitions (ADate (Calendar.mkdate 2024 1 12)) eq_refl)
    as (s & E & _ & _ & _ & _ & H & _).
  exists s. split; [exact E | apply H; reflexivity].
Defined.

Lemma valid_signal_closed_form (doy : Z) :
  valid_signal
    (mkSignal (label (doy mod 27)) (doy mod 27)
       ((if doy mod 3 =? 0 then [event_1030 (doy mod 27)] else []) ++
        (if doy mod 4 =? 0 then [event_1415 (doy mod 27)] else []))%list
       (if doy mod 30 <? 15 then "Waxing" else "Waning")) = true.
Proof.
  pose proof (Z.mod_pos_bound doy 27 ltac:(lia)) as H.
  unfold valid_signal.
  cbn [nakshatra_index current_nakshatra transitions moon_phase].
  assert (E1 : is_event (doy mod 27) (event_1030 (doy mod 27)) = true).
  { unfold is_event, event_1030. cbn [tr_time tr_from tr_to].
    rewrite !String.eqb_refl. reflexivity. }
  assert (E2 : is_event (doy mod 27) (event_1415 (doy mod 27)) = true).
  { unfold is_event, event_1415. cbn [tr_time tr_from tr_to].
    rewrite !String.eqb_refl. apply orb_true_r. }
  replace (0 <=? doy mod 27) with true by (symmetry; apply Z.leb_le; lia).
  replace (doy mod 27 <? 27) with true by (symmetry; apply Z.ltb_lt; lia).
  rewrite String.eqb_refl.
  destruct (doy mod 3 =? 0), (doy mod 4 =? 0), (doy mod 30 <? 15);
    cbn [app List.length forallb Nat.leb andb]; rewrite ?E1, ?E2; reflexivity.
Qed.

(** C8: the simulation is a total function of the calendar date.  Two
    arguments with the same calendar date, a date or a date with a clock
    time, give the same signal; no exception is raised; and the signal is a
    valid one: an index from 0 to 26, the name at that index, at most two
    events, each one of the two the index allows, and a phase that is Waxing
    or Waning. *)
Theorem simulate_total_deterministic (date1 date2 : DateArg) :
  Calendar.valid_date (date_of date1) = true ->
  date_of date1 = date_of date2 ->
  exists s : Signal,
    simulate_nakshatra_data date1 = Some s /\
    simulate_nakshatra_data date2 = Some s /\
    valid_signal s = true.
Proof.
  intros V E. eexists. split; [apply simulate_closed_form, V |]. split.
  - rewrite E. apply simulate_closed_form. rewrite <- E. exact V.
  - apply valid_signal_closed_form.
Qed.

Lemma simulate_total_deterministic_witness :
  exists s : Signal,
    simulate_nakshatra_data (ADate (Calendar.mkdate 2024 2 29)) = Some s /\
    simulate_nakshatra_data
      (ADatetime (Calendar.mkdate 2024 2 29) "09:15:00") = Some s /\
    valid_signal s = true.
Proof.
  exact (simulate_total_deterministic
           (ADate (Calendar.mkdate 2024 2 29))
           (ADatetime (Calendar.mkdate 2024 2 29) "09:15:00")
           eq_refl eq_refl).
Defined.

(** ** Python floats *)

Module PyFloatFacts.

Local Open Scope R_scope.

Lemma Rltb_true (x y : R) : x < y -> Rltb x y = true.
Proof. intros H. unfold Rltb. destruct (Rlt_dec x y); [reflexivity | lra]. Qed.

Lemma Rltb_false (x y : R) : y <= x -> Rltb x y = false.
Proof. intros H. unfold Rltb. destruct (Rlt_dec x y); [lra | reflexivity]. Qed.

Lemma Reqb_true (x y : R) : x = y -> Reqb x y = true.
Proof.
  intros H. unfold Reqb. destruct (Req_dec_T x y); [reflexivity | contradiction].
Qed.

Lemma Reqb_false (x y : R) : x <> y -> Reqb x y = false.
Proof.
  intros H. unfold Reqb. destruct (Req_dec_T x y); [contradiction | reflexivity].
Qed.

(** Multiplying by a positive finite constant keeps the kind of a float. *)
Lemma fmul_pos_const (x : pyfloat) (c : R) :
  0 < c ->
  fmul x (Fin c) =
  match x with
  | Fin a => Fin (a * c)
  | PInf => PInf
  | NInf => NInf
  | NaN => NaN
  end.
Proof.
  intros H. destruct x; cbn; try reflexivity;
    rewrite Reqb_false, Rltb_true by lra; reflexivity.
Qed.

Lemma fadd_fin_r (x : pyfloat) (b : R) :
  fadd x (Fin b) =
  match x with
  | Fin a => Fin (a + b)
  | PInf => PInf
  | NInf => NInf
  | NaN => NaN
  end.
Proof. destruct x; reflexivity. Qed.

Lemma fdiv_fin (a b : R) : b <> 0 -> fdiv (Fin a) (Fin b) = Fin (a / b).
Proof. intros H. cbn. rewrite Reqb_false by exact H. reflexivity. Qed.

Lemma flt_fin (a b : R) : flt (Fin a) (Fin b) = Rltb a b.
Proof. reflexivity. Qed.

(** The special cases of IEEE 754 the operations follow. *)
Example fdiv_by_zero :
  fdiv (Fin 5) (Fin 0) = PInf /\ fdiv (Fin (-5)) (Fin 0) = NInf /\
  fdiv (Fin 0) (Fin 0) = NaN.
Proof.
  cbn. unfold signed_inf.
  rewrite (Reqb_true 0 0), (Reqb_false 5 0), (Reqb_false (-5) 0),
    (Rltb_true 0 5), (Rltb_false 0 (-5)) by lra.
  repeat split.
Qed.

Example fmul_special :
  fmul PInf (Fin 0) = NaN /\ fmul (Fin (-2)) PInf = NInf /\
  fmul NInf (Fin 3) = NInf /\ fadd PInf NInf = NaN /\ fsub PInf (Fin 1) = PInf.
Proof.
  cbn.
  rewrite (Reqb_true 0 0), (Reqb_false (-2) 0), (Reqb_false 3 0),
    (Rltb_false 0 (-2)), (Rltb_true 0 3) by lra.
  repeat split.
Qed.

Example flt_special :
  flt NaN (Fin 1) = false /\ flt (Fin 1) NaN = false /\
  flt NInf (Fin 1) = true /\ flt (Fin 1) PInf = true /\
  flt PInf PInf = false /\ flt (Fin 1) NInf = false.
Proof. repeat split. Qed.

(** The clamp stays between its bounds, unless it is fed [NaN]. *)
Lemma clip_bounds (x : pyfloat) (lo hi : R) :
  lo <= hi -> isnan x = false ->
  exists c, clip x lo hi = Fin c /\ lo <= c <= hi.
Proof.
  intros H N. destruct x as [a | | |]; cbn in *; try discriminate.
  - eexists; split; [reflexivity |].
    unfold Rmin, Rmax.
    destruct (Rle_dec a lo); destruct (Rle_dec _ hi); lra.
  - exists hi; split; [reflexivity | lra].
  - exists lo; split; [| lra]. unfold Rmin.
    destruct (Rle_dec lo hi); [reflexivity | lra].
Qed.

End PyFloatFacts.
Import PyFloatFacts.

(** ** pandas columns *)

Module SeriesFacts.
Import Series.
Local Open Scope list_scope.

Lemma firstn_snoc {A : Type} (n : nat) (l : list A) (x : A) :
  nth_error l n = Some x -> firstn (S n) l = (firstn n l ++ [x])%list.
Proof.
  revert l; induction n as [| n IH]; intros [| y l] H; try discriminate.
  - cbn in H. injection H as ->. reflexivity.
  - cbn in H.
    change (firstn (S (S n)) (y :: l)) with (y :: firstn (S n) l).
    rewrite (IH l H). reflexivity.
Qed.

Lemma combine_snoc {A B : Type} (l : list A) (m : list B) (x : A) (y : B) :
  List.length l = List.length m ->
  combine (l ++ [x]) (m ++ [y]) = (combine l m ++ [(x, y)])%list.
Proof.
  revert m; induction l as [| a l IH]; intros [| b m] H; try discriminate.
  - reflexivity.
  - cbn. rewrite IH by (cbn in H; lia). reflexivity.
Qed.

Lemma length_shift (k : nat) (s : Series) :
  List.length (shift k s) = List.length s.
Proof.
  unfold shift. rewrite length_firstn, length_app. lia.
Qed.

(** Shifting a column that has one more row at the end. *)
Lemma shift_snoc (k : nat) (s : Series) (a b : pyfloat) :
  (1 <= k)%nat ->
  nth_error (repeat NaN k ++ s)%list (List.length s) = Some b ->
  shift k (s ++ [a]) = (shift k s ++ [b])%list.
Proof.
  intros K H. unfold shift.
  rewrite length_app, Nat.add_1_r, app_assoc, firstn_app.
  rewrite length_app, repeat_length.
  replace (S (List.length s) - (k + List.length s))%nat with 0%nat by lia.
  cbn [firstn]. rewrite app_nil_r. apply firstn_snoc, H.
Qed.

Lemma pct_change_snoc (k : nat) (s : Series) (a b : pyfloat) :
  (1 <= k)%nat ->
  nth_error (repeat NaN k ++ s)%list (List.length s) = Some b ->
  pct_change k (s ++ [a]) =
  (pct_change k s ++ [fsub (fdiv a b) (Fin 1)])%list.
Proof.
  intros K H. unfold pct_change.
  rewrite (shift_snoc k s a b K H).
  rewrite combine_snoc by (symmetry; apply length_shift).
  rewrite map_app. reflexivity.
Qed.

Lemma dropna_snoc (s : Series) (x : pyfloat) :
  dropna (s ++ [x]) =
  (dropna s ++ (if isnan x then [] else [x]))%list.
Proof.
  unfold dropna. rewrite filter_app. cbn. destruct (isnan x); reflexivity.
Qed.

(** With at most [k] rows, no [k]-period change exists. *)
Lemma dropna_pct_change_short (k : nat) (s : Series) :
  (1 <= k)%nat -> (List.length s <= k)%nat -> dropna (pct_change k s) = [].
Proof.
  intros K. induction s as [| a s IH] using rev_ind; intros L.
  - reflexivity.
  - rewrite length_app in L. cbn in L.
    rewrite (pct_change_snoc k s a NaN K).
    + rewrite dropna_snoc, IH by lia.
      destruct a; reflexivity.
    + rewrite nth_error_app1 by (rewrite repeat_length; lia).
      apply nth_error_repeat. lia.
Qed.

(** The last row of the [k]-period change, when the lag exists. *)
Lemma dropna_pct_change_last (k : nat) (s : Series) (a b : pyfloat) :
  (1 <= k)%nat -> (k <= List.length s)%nat ->
  nth_error s (List.length s - k) = Some b ->
  isnan (fsub (fdiv a b) (Fin 1)) = false ->
  dropna (pct_change k (s ++ [a])) =
  (dropna (pct_change k s) ++ [fsub (fdiv a b) (Fin 1)])%list.
Proof.
  intros K L H N.
  rewrite (pct_change_snoc k s a b K).
  - rewrite dropna_snoc, N. reflexivity.
  - rewrite nth_error_app2 by (rewrite repeat_length; lia).
    rewrite repeat_length. exact H.
Qed.

Lemma iloc_last (s : Series) (x : pyfloat) :
  (Py.len (s ++ [x]) >? 0) = true /\ iloc (s ++ [x]) (-1) = Some x.
Proof.
  unfold iloc, Py.index, Py.len. rewrite length_app. cbn [List.length].
  split; [apply Z.gtb_lt; lia |].
  replace (-1 <? 0) with true by reflexivity.
  destruct (-1 + Z.of_nat (List.length s + 1) <? 0) eqn:E;
    [apply Z.ltb_lt in E; lia |].
  replace (Z.to_nat (-1 + Z.of_nat (List.length s + 1))) with (List.length s)
    by lia.
  rewrite nth_error_app2, Nat.sub_diag by lia. reflexivity.
Qed.

Lemma index_In {A : Type} (l : list A) (i : Z) (x : A) :
  Py.index l i = Some x -> In x l.
Proof.
  unfold Py.index.
  destruct ((if i <? 0 then i + Py.len l else i) <? 0); [discriminate |].
  apply nth_error_In.
Qed.

Lemma iloc_dropna_not_nan (s : Series) (i : Z) (x : pyfloat) :
  iloc (dropna s) i = Some x -> isnan x = false.
Proof.
  intros H. apply index_In in H. unfold dropna in H.
  apply filter_In in H. destruct H as [_ H].
  destruct (isnan x); [discriminate | reflexivity].
Qed.

End SeriesFacts.

(** ** The recent trend *)

Module TrendFacts.
Import Series SeriesFacts.
Local Open Scope list_scope.

Lemma close_column_snoc (df : DataFrame) (r : OHLC) :
  close_column (df ++ [r]) = close_column df ++ [Fin (Close r)].
Proof. unfold close_column. rewrite map_app. reflexivity. Qed.

Lemma length_close_column (df : DataFrame) :
  List.length (close_column df) = List.length df.
Proof. apply length_map. Qed.

Lemma pct_fin (a b : R) :
  b <> 0%R ->
  fsub (fdiv (Fin a) (Fin b)) (Fin 1) = Fin ((a - b) / b).
Proof.
  intros H. rewrite fdiv_fin by exact H. cbn. f_equal. field. exact H.
Qed.

(** The trend is never [NaN]: it is read after [dropna], or it is 0.0. *)
Lemma recent_trend_not_nan (df : DataFrame) : isnan (recent_trend df) = false.
Proof.
  unfold recent_trend, recent_trend_try.
  destruct (Py.len (dropna (pct_change 5 (close_column df))) >? 0).
  - destruct (iloc _ (-1)) eqn:E; [| reflexivity].
    apply (iloc_dropna_not_nan _ _ _ E).
  - destruct (Py.len (dropna (pct_change 1 (close_column df))) >? 0);
      [| reflexivity].
    destruct (iloc _ (-1)) eqn:E; [| reflexivity].
    apply (iloc_dropna_not_nan _ _ _ E).
Qed.

(** Six rows or more: the change over five periods at the last row. *)
Lemma recent_trend_long (df : DataFrame) (ra rb : OHLC) :
  (5 <= List.length df)%nat ->
  nth_error df (List.length df - 5) = Some rb ->
  Close rb <> 0%R ->
  recent_trend (df ++ [ra]) =
  Fin ((Close ra - Close rb) / Close rb).
Proof.
  intros L H Z0. unfold recent_trend, recent_trend_try.
  rewrite close_column_snoc.
  rewrite (dropna_pct_change_last 5 _ _ (Fin (Close rb))).
  - rewrite (pct_fin _ _ Z0).
    destruct (iloc_last (dropna (pct_change 5 (close_column df)))
                (Fin ((Close ra - Close rb) / Close rb))) as [-> ->].
    reflexivity.
  - lia.
  - rewrite length_close_column. exact L.
  - rewrite length_close_column. unfold close_column.
    rewrite nth_error_map, H. reflexivity.
  - rewrite (pct_fin _ _ Z0). reflexivity.
Qed.

(** Two to five rows: no change over five periods, the change over one
    period at the last row. *)
Lemma recent_trend_short (df : DataFrame) (ra rb : OHLC) :
  (1 <= List.length df <= 4)%nat ->
  nth_error df (List.length df - 1) = Some rb ->
  Close rb <> 0%R ->
  recent_trend (df ++ [ra]) =
  Fin ((Close ra - Close rb) / Close rb).
Proof.
  intros L H Z0. unfold recent_trend, recent_trend_try.
  rewrite dropna_pct_change_short
    by (rewrite ?length_close_column, ?length_app; cbn; lia).
  replace (Py.len (@nil pyfloat) >? 0) with false by reflexivity.
  rewrite close_column_snoc.
  rewrite (dropna_pct_change_last 1 _ _ (Fin (Close rb))).
  - rewrite (pct_fin _ _ Z0).
    destruct (iloc_last (dropna (pct_change 1 (close_column df)))
                (Fin ((Close ra - Close rb) / Close rb))) as [-> ->].
    reflexivity.
  - lia.
  - rewrite length_close_column. lia.
  - rewrite length_close_column. unfold close_column.
    rewrite nth_error_map, H. reflexivity.
  - rewrite (pct_fin _ _ Z0). reflexivity.
Qed.

End TrendFacts.

Lemma nonempty_snoc {A : Type} (l : list A) :
  (1 <= List.length l)%nat ->
  exists l' x, l = (l' ++ [x])%list /\ List.length l = S (List.length l').
Proof.
  intros H. destruct (exists_last (l := l)) as (l' & x & ->).
  - intros ->. cbn in H. lia.
  - exists l', x. split; [reflexivity |]. rewrite length_app. cbn. lia.
Qed.

Lemma close_at_last (df : DataFrame) (r : OHLC) :
  close_at (df ++ [r])%list (List.length df) = Close r.
Proof.
  unfold close_at. rewrite map_app, app_nth2 by (rewrite length_map; lia).
  rewrite length_map, Nat.sub_diag. reflexivity.
Qed.

Lemma close_at_front (df : DataFrame) (r : OHLC) (i : nat) :
  (i < List.length df)%nat ->
  exists rb, nth_error df i = Some rb /\
             close_at (df ++ [r])%list i = Close rb.
Proof.
  intros H. exists (nth i df r). split.
  - apply nth_error_nth'. exact H.
  - unfold close_at. rewrite map_app, app_nth1 by (rewrite length_map; lia).
    rewrite (nth_indep _ 0%R (Close r)) by (rewrite length_map; lia).
    apply map_nth.
Qed.



(** ** The prediction scoring *)

Lemma nakshatra_factor_fin (nakshatra_data : Signal) :
  nakshatra_factor nakshatra_data =
  Fin (sin (IZR (nakshatra_index nakshatra_data) * 2 * PI / 27)).
Proof.
  unfold nakshatra_factor, of_int.
  change (fmul (Fin ?a) (Fin ?b)) with (Fin (a * b)).
  rewrite fdiv_fin by lra. rewrite mult_IZR. reflexivity.
Qed.

(** The combined score of the code is the combined score of the
    specification; an infinite trend makes it infinite. *)
Lemma combined_score_cases (stock_data : DataFrame) (nakshatra_data : Signal) :
  combined_score stock_data nakshatra_data =
  match recent_trend stock_data with
  | Fin r => Fin (combinedScore r (nakshatra_index nakshatra_data)
                    (Py.len (transitions nakshatra_data)))
  | PInf => PInf
  | NInf => NInf
  | NaN => NaN
  end.
Proof.
  unfold combined_score, transition_factor, of_int.
  rewrite nakshatra_factor_fin.
  change (fmul (Fin ?a) (Fin ?b)) with (Fin (a * b)).
  rewrite fmul_pos_const by lra.
  destruct (recent_trend stock_data); reflexivity.
Qed.

Lemma long_enough (stock_data : DataFrame) :
  2 <= Py.len stock_data -> (Py.len stock_data <? 2) = false.
Proof. intros H. apply Z.ltb_ge. exact H. Qed.

Lemma two_bars_trend : recent_trend two_bars = Fin ((102 - 100) / 100).
Proof.
  apply (TrendFacts.recent_trend_short [bar 100] (bar 102) (bar 100)).
  - cbn. lia.
  - reflexivity.
  - cbn. lra.
Qed.

(** A close of zero five periods back: the trend is an infinity, which
    [dropna] keeps. *)
Example zero_close_trend :
  recent_trend [bar 0; bar 1; bar 1; bar 1; bar 1; bar 2] = PInf.
Proof.
  unfold recent_trend, recent_trend_try.
  change (close_column [bar 0; bar 1; bar 1; bar 1; bar 1; bar 2])
    with ([Fin 0; Fin 1; Fin 1; Fin 1; Fin 1] ++ [Fin 2])%list.
  rewrite (SeriesFacts.pct_change_snoc 5 _ (Fin 2) (Fin 0))
    by (cbn; lia || reflexivity).
  rewrite SeriesFacts.dropna_snoc.
  assert (E : fsub (fdiv (Fin 2) (Fin 0)) (Fin 1) = PInf).
  { cbn. unfold signed_inf.
    rewrite (Reqb_true 0 0), (Reqb_false 2 0), (Rltb_true 0 2) by lra.
    reflexivity. }
  rewrite E. cbn [isnan].
  destruct (SeriesFacts.iloc_last
              (Series.dropna
                 (Series.pct_change 5 [Fin 0; Fin 1; Fin 1; Fin 1; Fin 1]))
              PInf) as [-> ->].
  reflexivity.
Qed.

Section ScoringFacts.

Variable format_pct2 : pyfloat -> string.

Lemma direction_of_score (df : DataFrame) (s : Signal) :
  2 <= Py.len df ->
  direction (generate_prediction format_pct2 (Some df) s) =
  if fgt (combined_score df s) (Fin 0.015) then "BULLISH 📈"
  else if flt (combined_score df s) (Fin (-0.015)) then "BEARISH 📉"
  else "NEUTRAL ➡️".
Proof.
  intros L. unfold generate_prediction. rewrite (long_enough df L).
  reflexivity.
Qed.

Lemma confidence_of_score (df : DataFrame) (s : Signal) :
  2 <= Py.len df ->
  confidence (generate_prediction format_pct2 (Some df) s) =
  clip (fadd (fmul (fabs (combined_score df s)) (Fin 1000)) (Fin 50)) 50 90.
Proof.
  intros L. unfold generate_prediction. rewrite (long_enough df L).
  reflexivity.
Qed.

Lemma key_times_of_score (df : DataFrame) (s : Signal) :
  2 <= Py.len df ->
  key_times (generate_prediction format_pct2 (Some df) s) = map (key_time_of s) (transitions s).
Proof.
  intros L. unfold generate_prediction. rewrite (long_enough df L).
  reflexivity.
Qed.

Lemma short_circuit (sd : option DataFrame) (s : Signal) :
  sd = None \/ (exists df, sd = Some df /\ Py.len df < 2) ->
  generate_prediction format_pct2 sd s = insufficient.
Proof.
  intros [-> | (df & -> & L)]; [reflexivity |].
  unfold generate_prediction.
  replace (Py.len df <? 2) with true by (symmetry; apply Z.ltb_lt; exact L).
  reflexivity.
Qed.

End ScoringFacts.



Lemma raw_confidence_cases (cs : pyfloat) :
  fadd (fmul (fabs cs) (Fin 1000)) (Fin 50) =
  match cs with
  | Fin x => Fin (Rabs x * 1000 + 50)
  | PInf | NInf => PInf
  | NaN => NaN
  end.
Proof.
  rewrite fmul_pos_const by lra. destruct cs; reflexivity.
Qed.

(** C3: with two records or more, whatever the signal, the confidence is
    clamp(|combinedScore|*1000 + 50, 50, 90) (90.0 when the score is an
    infinity); and for every price table, present or not, and every signal
    the confidence is a number from 50.0 to 90.0, the insufficient-data
    branch giving 50.0. *)
Theorem confidence_clamped
    (format_pct2 : pyfloat -> string) (stock_data : option DataFrame)
    (nakshatra_data : Signal) :
  let p := generate_prediction format_pct2 stock_data nakshatra_data in
  (forall df : DataFrame, stock_data = Some df -> 2 <= Py.len df ->
     let cs := combined_score df nakshatra_data in
     confidence p = clip (fadd (fmul (fabs cs) (Fin 1000)) (Fin 50)) 50 90 /\
     (forall x : R, cs = Fin x ->
        confidence p = Fin (clamp (Rabs x * 1000 + 50) 50 90)) /\
     (cs = PInf \/ cs = NInf -> confidence p = Fin 90)) /\
  (stock_data = None \/
   (exists df, stock_data = Some df /\ Py.len df < 2) ->
   confidence p = Fin 50) /\
  exists c : R, confidence p = Fin c /\ (50 <= c <= 90)%R.
Proof.
  intros p; subst p. split; [| split].
  - intros df -> L cs. subst cs.
    rewrite (confidence_of_score format_pct2 df nakshatra_data L).
    split; [reflexivity |]. split.
    + intros x ->. reflexivity.
    + intros [-> | ->]; rewrite raw_confidence_cases; reflexivity.
  - intros H. rewrite (short_circuit format_pct2 _ _ H). reflexivity.
  - destruct stock_data as [df |].
    + destruct (Z.ltb_spec (Py.len df) 2) as [L | L].
      * rewrite (short_circuit format_pct2 (Some df) nakshatra_data)
          by (right; exists df; split; [reflexivity | exact L]).
        exists 50%R. split; [reflexivity | lra].
      * rewrite (confidence_of_score format_pct2 df nakshatra_data L).
        apply clip_bounds; [lra |].
        rewrite raw_confidence_cases, combined_score_cases.
        pose proof (TrendFacts.recent_trend_not_nan df) as N.
        destruct (recent_trend df); [reflexivity .. | discriminate N].
    + exists 50%R. split; [reflexivity | lra].
Qed.

Lemma confidence_clamped_witness :
  confidence (generate_prediction two_decimals (Some two_bars) jan27_signal) =
    Fin (clamp (Rabs (combinedScore ((102 - 100) / 100) 0 1) * 1000 + 50)
           50 90) /\
  confidence (generate_prediction two_decimals (Some [bar 100]) jan27_signal) =
    Fin 50.
Proof.
  split.
  - destruct (confidence_clamped two_decimals (Some two_bars) jan27_signal)
      as (H & _).
    destruct (H two_bars eq_refl) as (_ & F & _).
    + cbn. lia.
    + apply F. rewrite combined_score_cases, two_bars_trend. reflexivity.
  - destruct (confidence_clamped two_decimals (Some [bar 100]) jan27_signal)
      as (_ & H & _).
    apply H. right. exists [bar 100]. split; [reflexivity | cbn; lia].
Defined.

(** C1: when the price table is absent or has fewer than two records the
    prediction is exactly NEUTRAL, 50.0, no key time, "Insufficient data",
    whatever the signal; and nothing else short-circuits: with two records
    or more the prediction is the scored one, with its direction, its
    clamped confidence, a key time per transition and the composite
    reasoning text, which is never "Insufficient data". *)
Theorem insufficient_data_only_short_circuit
    (format_pct2 : pyfloat -> string) (stock_data : option DataFrame)
    (nakshatra_data : Signal) :
  let p := generate_prediction format_pct2 stock_data nakshatra_data in
  (stock_data = None \/
   (exists df, stock_data = Some df /\ Py.len df < 2) ->
   p = mkPrediction "NEUTRAL ➡️" (Fin 50) [] "Insufficient data") /\
  (forall df : DataFrame, stock_data = Some df -> 2 <= Py.len df ->
     let cs := combined_score df nakshatra_data in
     p = mkPrediction
           (if fgt cs (Fin 0.015) then "BULLISH 📈"
            else if flt cs (Fin (-0.015)) then "BEARISH 📉"
            else "NEUTRAL ➡️")
           (clip (fadd (fmul (fabs cs) (Fin 1000)) (Fin 50)) 50 90)
           (map (key_time_of nakshatra_data) (transitions nakshatra_data))
           ("Recent trend: " ++ format_pct2 (recent_trend df) ++
            ", Nakshatra: " ++ current_nakshatra nakshatra_data ++
            ", Transitions: " ++
            str_int (Py.len (transitions nakshatra_data))) /\
     reasoning p <> "Insufficient data").
Proof.
  intros p; subst p. split.
  - intros H. apply (short_circuit format_pct2 _ _ H).
  - intros df -> L cs. subst cs. unfold generate_prediction.
    rewrite (long_enough df L). split; [reflexivity |].
    cbn [reasoning append]. intros H. discriminate H.
Qed.

Lemma insufficient_data_only_short_circuit_witness :
  generate_prediction two_decimals None jan27_signal = insufficient /\
  generate_prediction two_decimals (Some [bar 100]) jan27_signal =
    insufficient /\
  reasoning (generate_prediction two_decimals (Some two_bars) jan27_signal) <>
    "Insufficient data".
Proof.
  split; [| split].
  - apply (proj1 (insufficient_data_only_short_circuit
                    two_decimals None jan27_signal)).
    left. reflexivity.
  - apply (proj1 (insufficient_data_only_short_circuit
                    two_decimals (Some [bar 100]) jan27_signal)).
    right. exists [bar 100]. split; [reflexivity | cbn; lia].
  - apply (proj2 (insufficient_data_only_short_circuit
                    two_decimals (Some two_bars) jan27_signal)
             two_bars eq_refl).
    cbn. lia.
Defined.

(** C9: whatever the price table and the signal, the direction is one of
    the three texts BULLISH, BEARISH and NEUTRAL followed by a space and
    their emoji; it is never one of the bare words. *)
Theorem direction_literals
    (format_pct2 : pyfloat -> string) (stock_data : option DataFrame)
    (nakshatra_data : Signal) :
  let d := direction
             (generate_prediction format_pct2 stock_data nakshatra_data) in
  (d = "BULLISH 📈" \/ d = "BEARISH 📉" \/ d = "NEUTRAL ➡️") /\
  d <> "BULLISH" /\ d <> "BEARISH" /\ d <> "NEUTRAL".
Proof.
  intros d.
  assert (H : d = "BULLISH 📈" \/ d = "BEARISH 📉" \/ d = "NEUTRAL ➡️").
  { subst d. unfold generate_prediction.
    destruct stock_data as [df |]; [| cbn; tauto].
    destruct (Py.len df <? 2); [cbn; tauto |].
    cbn [direction].
    destruct (fgt _ _); [tauto |]. destruct (flt _ _); tauto. }
  split; [exact H |].
  destruct H as [-> | [-> | ->]]; repeat split; discriminate.
Qed.

(** C7: with two records or more, whatever the signal, the prediction has
    one key time per transition of the signal, in the same order; the key
    time carries the time of its transition, the period label made of the
    two names of that transition around an arrow, and the impact Volatile
    when the base index of the signal is a multiple of 3, Moderate
    otherwise, the same for every transition. *)
Theorem key_times_per_transition
    (format_pct2 : pyfloat -> string) (stock_data : DataFrame)
    (nakshatra_data : Signal) :
  2 <= Py.len stock_data ->
  let p := generate_prediction format_pct2 (Some stock_data) nakshatra_data in
  let impact :=
    if nakshatra_index nakshatra_data mod 3 =? 0 then "Volatile"
    else "Moderate" in
  List.length (key_times p) = List.length (transitions nakshatra_data) /\
  (forall (i : nat) (t : Transition),
     nth_error (transitions nakshatra_data) i = Some t ->
     nth_error (key_times p) i =
     Some (mkKeyTime (tr_time t) impact (tr_from t ++ " → " ++ tr_to t))) /\
  (nakshatra_index nakshatra_data mod 3 = 0 ->
   forall k, In k (key_times p) -> kt_expected_impact k = "Volatile") /\
  (nakshatra_index nakshatra_data mod 3 <> 0 ->
   forall k, In k (key_times p) -> kt_expected_impact k = "Moderate").
Proof.
  intros L p impact. subst p impact.
  rewrite (key_times_of_score format_pct2 _ nakshatra_data L).
  split; [apply length_map |]. split.
  - intros i t H. rewrite nth_error_map, H. reflexivity.
  - split; intros H k I; apply in_map_iff in I; destruct I as (t & <- & _);
      unfold key_time_of; cbn [kt_expected_impact];
      destruct (Z.eqb_spec (nakshatra_index nakshatra_data mod 3) 0);
      reflexivity || contradiction.
Qed.

Lemma key_times_per_transition_witness :
  key_times (generate_prediction two_decimals (Some two_bars) jan27_signal) =
  [mkKeyTime "10:30" "Volatile" "Ashwini → Bharani"].
Proof.
  destruct (key_times_per_transition two_decimals two_bars jan27_signal)
    as (Hl & Hn & _).
  - cbn. lia.
  - specialize (Hn 0%nat (event_1030 0) eq_refl).
    destruct (key_times _) as [| k [| k' ks]]; try discriminate Hl.
    cbn in Hn. injection Hn as ->. reflexivity.
Defined.

Lemma mod27_mod3 (doy : Z) : (doy mod 27) mod 3 = doy mod 3.
Proof.
  apply Z.mod_mod_divide. exists 9. reflexivity.
Qed.

(** C10: on every calendar date and with two records or more, a signal
    that holds a 10:30 transition gives key times that are all Volatile (the
    index is the day of the year modulo 27 and 3 divides 27, so a day that is
    a multiple of 3 has an index that is one too); hence a Moderate key time
    occurs only when the sole transition of the signal is the 14:15 event. *)
Theorem moderate_only_sole_1415
    (format_pct2 : pyfloat -> string) (date : DateArg)
    (stock_data : DataFrame) :
  Calendar.valid_date (date_of date) = true ->
  2 <= Py.len stock_data ->
  exists s : Signal,
    simulate_nakshatra_data date = Some s /\
    let p := generate_prediction format_pct2 (Some stock_data) s in
    (Calendar.tm_yday (date_of date) mod 3 = 0 ->
     nakshatra_index s mod 3 = 0) /\
    ((exists t, In t (transitions s) /\ tr_time t = "10:30") ->
     forall k, In k (key_times p) -> kt_expected_impact k = "Volatile") /\
    (forall k, In k (key_times p) -> kt_expected_impact k = "Moderate" ->
     transitions s = [event_1415 (nakshatra_index s)]).
Proof.
  intros V L. eexists. split; [apply simulate_closed_form, V |].
  set (doy := Calendar.tm_yday (date_of date)).
  match goal with |- let p := generate_prediction _ _ ?sig in _ =>
    set (s := sig) end.
  intros p. subst p.
  rewrite (key_times_of_score format_pct2 _ s L).
  assert (Hidx : nakshatra_index s mod 3 = doy mod 3) by apply mod27_mod3.
  assert (Himp : forall k, In k (map (key_time_of s) (transitions s)) ->
            kt_expected_impact k =
            if doy mod 3 =? 0 then "Volatile" else "Moderate").
  { intros k I. apply in_map_iff in I. destruct I as (t & <- & _).
    unfold key_time_of. cbn [kt_expected_impact]. rewrite Hidx. reflexivity. }
  split; [intros H; rewrite Hidx; exact H |]. split.
  - intros (t & I & T) k K. rewrite (Himp k K).
    destruct (Z.eqb_spec (doy mod 3) 0) as [E | E]; [reflexivity |].
    exfalso. cbn [transitions s] in I. fold doy in I.
    destruct (doy mod 3 =? 0) eqn:E3; [apply Z.eqb_eq in E3; contradiction |].
    destruct (doy mod 4 =? 0); cbn in I; [| contradiction].
    destruct I as [<- | []]. discriminate T.
  - intros k K M. rewrite (Himp k K) in M.
    cbn [transitions s nakshatra_index] in *. fold doy in K |- *.
    destruct (doy mod 3 =? 0); [discriminate M |].
    destruct (doy mod 4 =? 0); [reflexivity |]. cbn in K. contradiction.
Qed.

Lemma moderate_only_sole_1415_witness :
  exists s : Signal,
    simulate_nakshatra_data (ADate (Calendar.mkdate 2024 1 4)) = Some s /\
    transitions s = [event_1415 (nakshatra_index s)].
Proof.
  destruct (moderate_only_sole_1415 two_decimals
              (ADate (Calendar.mkdate 2024 1 4)) two_bars eq_refl)
    as (s & E & _ & _ & H).
  - cbn. lia.
  - exists s. split; [exact E |].
    assert (I : Some s = Some (mkSignal "Mrigashira" 4 [event_1415 4] "Waxing"))
      by (rewrite <- E; reflexivity).
    injection I as I.
    apply (H (mkKeyTime "14:15" "Moderate" "Ardra → Punarvasu")).
    + rewrite I. left. reflexivity.
    + reflexivity.
Defined.

(** * Further properties of the code *)

(** ** The signal simulation *)

(** X1: the parse of the first ten characters of [str(date)] gives back the
    calendar date of the argument, for a date and for a datetime with any
    clock text: no [ValueError] is raised. *)
Theorem parse_recovers_date (date : DateArg) :
  Calendar.valid_date (date_of date) = true ->
  Calendar.strptime (Py.prefix 10 (str date)) = Some (date_of date).
Proof.
  intros V. apply CalendarFacts.strptime_str; [exact V |].
  destruct date; [left | right; eexists]; reflexivity.
Qed.

Lemma parse_recovers_date_witness :
  Calendar.strptime
    (Py.prefix 10 (str (ADatetime (Calendar.mkdate 2024 2 29) "23:59:59.5")))
  = Some (Calendar.mkdate 2024 2 29).
Proof.
  exact (parse_recovers_date
           (ADatetime (Calendar.mkdate 2024 2 29) "23:59:59.5") eq_refl).
Defined.

Lemma tm_yday_same_day (d1 d2 : Calendar.date) :
  Calendar.month d1 = Calendar.month d2 ->
  Calendar.day d1 = Calendar.day d2 ->
  Calendar.month d1 <= 2 \/
  Calendar.is_leap (Calendar.year d1) = Calendar.is_leap (Calendar.year d2) ->
  Calendar.tm_yday d1 = Calendar.tm_yday d2.
Proof.
  intros Hm Hd H. unfold Calendar.tm_yday, Calendar.days_before_month.
  rewrite <- Hm, <- Hd. destruct H as [H | H].
  - replace (2 <? Calendar.month d1) with false
      by (symmetry; apply Z.ltb_ge; exact H).
    reflexivity.
  - rewrite H. reflexivity.
Qed.

(** X2: two dates with the same month and day give the same signal when
    they fall in January or February, or when their years are both leap
    years or both common years. *)
Theorem same_day_same_signal (d1 d2 : Calendar.date) :
  Calendar.valid_date d1 = true ->
  Calendar.valid_date d2 = true ->
  Calendar.month d1 = Calendar.month d2 ->
  Calendar.day d1 = Calendar.day d2 ->
  Calendar.month d1 <= 2 \/
  Calendar.is_leap (Calendar.year d1) = Calendar.is_leap (Calendar.year d2) ->
  simulate_nakshatra_data (ADate d1) = simulate_nakshatra_data (ADate d2).
Proof.
  intros V1 V2 Hm Hd H.
  rewrite (simulate_closed_form (ADate d1) V1),
    (simulate_closed_form (ADate d2) V2).
  cbn [date_of]. rewrite (tm_yday_same_day d1 d2 Hm Hd H). reflexivity.
Qed.

Lemma same_day_same_signal_witness :
  simulate_nakshatra_data (ADate (Calendar.mkdate 2023 7 14)) =
  simulate_nakshatra_data (ADate (Calendar.mkdate 2025 7 14)).
Proof.
  apply same_day_same_signal; try reflexivity. right. reflexivity.
Defined.

(** X3: after February the signal of a leap year runs one day ahead: for
    the same month and day the day of the year is one more than in a common
    year, the index is the next one modulo 27, and the two signals differ. *)
Theorem leap_year_shift (d1 d2 : Calendar.date) :
  Calendar.valid_date d1 = true ->
  Calendar.valid_date d2 = true ->
  Calendar.month d1 = Calendar.month d2 ->
  Calendar.day d1 = Calendar.day d2 ->
  2 < Calendar.month d1 ->
  Calendar.is_leap (Calendar.year d1) = true ->
  Calendar.is_leap (Calendar.year d2) = false ->
  Calendar.tm_yday d1 = Calendar.tm_yday d2 + 1 /\
  exists s1 s2 : Signal,
    simulate_nakshatra_data (ADate d1) = Some s1 /\
    simulate_nakshatra_data (ADate d2) = Some s2 /\
    nakshatra_index s1 = (nakshatra_index s2 + 1) mod 27 /\
    s1 <> s2.
Proof.
  intros V1 V2 Hm Hd M L1 L2.
  assert (T : Calendar.tm_yday d1 = Calendar.tm_yday d2 + 1).
  { unfold Calendar.tm_yday, Calendar.days_before_month.
    rewrite <- Hm, <- Hd, L1, L2.
    replace (2 <? Calendar.month d1) with true
      by (symmetry; apply Z.ltb_lt; exact M).
    cbn [andb]. lia. }
  split; [exact T |].
  do 2 eexists.
  split; [apply (simulate_closed_form (ADate d1) V1) |].
  split; [apply (simulate_closed_form (ADate d2) V2) |].
  cbn [nakshatra_index date_of]. rewrite T.
  assert (I : (Calendar.tm_yday d2 + 1) mod 27 =
              (Calendar.tm_yday d2 mod 27 + 1) mod 27)
    by (rewrite Z.add_mod_idemp_l by lia; reflexivity).
  split; [exact I |].
  intros E. injection E as _ E _ _.
  pose proof (Z.mod_pos_bound (Calendar.tm_yday d2) 27 ltac:(lia)) as B.
  pose proof (Z.mod_pos_bound (Calendar.tm_yday d2 + 1) 27 ltac:(lia)) as B'.
  rewrite I in E, B'.
  destruct (Z.eq_dec (Calendar.tm_yday d2 mod 27) 26) as [E26 | N26].
  - rewrite E26 in E. cbn in E. lia.
  - rewrite Z.mod_small in E by lia. lia.
Qed.

Lemma leap_year_shift_witness :
  Calendar.tm_yday (Calendar.mkdate 2024 3 1) =
  Calendar.tm_yday (Calendar.mkdate 2023 3 1) + 1 /\
  exists s1 s2 : Signal,
    simulate_nakshatra_data (ADate (Calendar.mkdate 2024 3 1)) = Some s1 /\
    simulate_nakshatra_data (ADate (Calendar.mkdate 2023 3 1)) = Some s2 /\
    nakshatra_index s1 = (nakshatra_index s2 + 1) mod 27 /\
    s1 <> s2.
Proof.
  apply (leap_year_shift (Calendar.mkdate 2024 3 1) (Calendar.mkdate 2023 3 1));
    try reflexivity.
Defined.

Lemma nakshatras_NoDup : NoDup nakshatras.
Proof.
  assert (E : nodup string_dec nakshatras = nakshatras) by (vm_compute; reflexivity).
  rewrite <- E. apply NoDup_nodup.
Qed.

Lemma label_inj (i j : Z) :
  0 <= i < 27 -> 0 <= j < 27 -> label i = label j -> i = j.
Proof.
  intros Hi Hj E. unfold label in E.
  apply (proj1 (NoDup_nth nakshatras "") nakshatras_NoDup) in E;
    change (List.length nakshatras) with 27%nat; lia.
Qed.

Lemma next_index_differs (idx k : Z) :
  0 <= idx < 27 -> 1 <= k <= 2 -> (idx + k) mod 27 <> idx.
Proof.
  intros H K E.
  destruct (Z_lt_le_dec (idx + k) 27) as [L | L].
  - rewrite Z.mod_small in E by lia. lia.
  - replace (idx + k) with (idx + k - 27 + 1 * 27) in E by lia.
    rewrite Z.mod_add, Z.mod_small in E by lia. lia.
Qed.

(** X4: on every calendar date, a 10:30 event starts from the current
    name of the signal; a 14:15 event does not: it starts from the next name
    of the list, also when it is the only event of the day; no event ends on
    the current name; and when both events are present the second starts
    where the first ends. *)
Theorem transitions_and_current_label (date : DateArg) :
  Calendar.valid_date (date_of date) = true ->
  exists s : Signal,
    simulate_nakshatra_data date = Some s /\
    (forall t, In t (transitions s) ->
       tr_to t <> current_nakshatra s /\
       (tr_time t = "10:30" -> tr_from t = current_nakshatra s) /\
       (tr_time t = "14:15" -> tr_from t <> current_nakshatra s)) /\
    (forall t1 t2, transitions s = [t1; t2] -> tr_to t1 = tr_from t2).
Proof.
  intros V. eexists. split; [apply simulate_closed_form, V |].
  set (doy := Calendar.tm_yday (date_of date)).
  cbn [transitions current_nakshatra].
  pose proof (Z.mod_pos_bound doy 27 ltac:(lia)) as B.
  assert (N1 : label ((doy mod 27 + 1) mod 27) <> label (doy mod 27)).
  { intros E. apply label_inj in E; [| apply Z.mod_pos_bound; lia | exact B].
    revert E. apply next_index_differs; lia. }
  assert (N2 : label ((doy mod 27 + 2) mod 27) <> label (doy mod 27)).
  { intros E. apply label_inj in E; [| apply Z.mod_pos_bound; lia | exact B].
    revert E. apply next_index_differs; lia. }
  split.
  - intros t I. apply in_app_or in I.
    destruct I as [I | I];
      [destruct (doy mod 3 =? 0) | destruct (doy mod 4 =? 0)];
      cbn in I; try contradiction; destruct I as [<- | []];
      cbn [event_1030 event_1415 tr_time tr_from tr_to];
      (split; [assumption |]); split; intros T;
      try discriminate T; try reflexivity; assumption.
  - intros t1 t2 E.
    destruct (doy mod 3 =? 0), (doy mod 4 =? 0); cbn in E; try discriminate E.
    injection E as <- <-. reflexivity.
Qed.

Lemma transitions_and_current_label_witness :
  exists s : Signal,
    simulate_nakshatra_data (ADate (Calendar.mkdate 2024 1 4)) = Some s /\
    transitions s = [mkTransition "14:15" "Ardra" "Punarvasu"] /\
    current_nakshatra s = "Mrigashira" /\
    forall t, In t (transitions s) -> tr_from t <> current_nakshatra s.
Proof.
  destruct (transitions_and_current_label (ADate (Calendar.mkdate 2024 1 4))
              eq_refl) as (s & E & H & _).
  exists s. split; [exact E |].
  assert (I : Some s = Some (mkSignal "Mrigashira" 4
                [mkTransition "14:15" "Ardra" "Punarvasu"] "Waxing"))
    by (rewrite <- E; reflexivity).
  injection I as I. split; [rewrite I; reflexivity |].
  split; [rewrite I; reflexivity |].
  intros t T. apply (H t T).
  rewrite I in T. destruct T as [<- | []]. reflexivity.
Defined.

(** X5: on every calendar date and with two records or more, the index of
    the signal is a multiple of 3 exactly when the 10:30 event is present;
    so a key time is Volatile exactly when the 10:30 event is present and
    Moderate exactly when the 14:15 event is the only transition. *)
Theorem impact_by_events
    (format_pct2 : pyfloat -> string) (date : DateArg)
    (stock_data : DataFrame) :
  Calendar.valid_date (date_of date) = true ->
  2 <= Py.len stock_data ->
  exists s : Signal,
    simulate_nakshatra_data date = Some s /\
    let idx := nakshatra_index s in
    let p := generate_prediction format_pct2 (Some stock_data) s in
    (idx mod 3 = 0 <-> In (event_1030 idx) (transitions s)) /\
    (forall k, In k (key_times p) ->
       (kt_expected_impact k = "Volatile" <->
        In (event_1030 idx) (transitions s)) /\
       (kt_expected_impact k = "Moderate" <->
        transitions s = [event_1415 idx])).
Proof.
  intros V L. eexists. split; [apply simulate_closed_form, V |].
  set (doy := Calendar.tm_yday (date_of date)).
  match goal with |- let idx := _ in let p := generate_prediction _ _ ?sig in _ =>
    set (s := sig) end.
  intros idx p. subst idx p.
  rewrite (key_times_of_score format_pct2 _ s L).
  assert (Hidx : nakshatra_index s mod 3 = doy mod 3) by apply mod27_mod3.
  pose proof (events_differ (doy mod 27)) as D.
  split.
  - rewrite Hidx. cbn [transitions s nakshatra_index].
    destruct (Z.eqb_spec (doy mod 3) 0) as [E | E];
      destruct (doy mod 4 =? 0); cbn; intuition congruence.
  - intros k K. apply in_map_iff in K. destruct K as (t & <- & T).
    unfold key_time_of. cbn [kt_expected_impact]. rewrite Hidx.
    cbn [transitions s nakshatra_index] in *.
    destruct (Z.eqb_spec (doy mod 3) 0) as [E | E];
      destruct (doy mod 4 =? 0); cbn in *;
      (split; split; intros H);
      try reflexivity; try discriminate H; try tauto;
      intuition congruence.
Qed.

Lemma impact_by_events_witness :
  exists s : Signal,
    simulate_nakshatra_data (ADate (Calendar.mkdate 2024 1 12)) = Some s /\
    (nakshatra_index s mod 3 = 0 <->
     In (event_1030 (nakshatra_index s)) (transitions s)).
Proof.
  destruct (impact_by_events two_decimals (ADate (Calendar.mkdate 2024 1 12))
              two_bars eq_refl) as (s & E & H & _).
  - cbn. lia.
  - exists s. split; [exact E | exact H].
Defined.

(** ** The prediction scoring *)

Lemma close_column_map (df : DataFrame) :
  close_column df = map Fin (map Close df).
Proof. unfold close_column. rewrite map_map. reflexivity. Qed.

(** X6: the scoring reads the close column only: two price tables with
    the same closes, whatever their open, high and low, get the same
    prediction. *)
Theorem prediction_reads_close_only
    (format_pct2 : pyfloat -> string) (df1 df2 : DataFrame)
    (nakshatra_data : Signal) :
  map Close df1 = map Close df2 ->
  generate_prediction format_pct2 (Some df1) nakshatra_data =
  generate_prediction format_pct2 (Some df2) nakshatra_data.
Proof.
  intros E.
  assert (C : close_column df1 = close_column df2)
    by (rewrite !close_column_map, E; reflexivity).
  assert (N : Py.len df1 = Py.len df2).
  { unfold Py.len. rewrite <- (length_map Close df1), E, length_map.
    reflexivity. }
  assert (T : recent_trend df1 = recent_trend df2)
    by (unfold recent_trend, recent_trend_try; rewrite C; reflexivity).
  unfold generate_prediction, combined_score. rewrite N, T. reflexivity.
Qed.

Lemma prediction_reads_close_only_witness :
  generate_prediction two_decimals
    (Some [mkOHLC 99 105 98 100; mkOHLC 100 103 97 102]) jan27_signal =
  generate_prediction two_decimals (Some two_bars) jan27_signal.
Proof.
  apply prediction_reads_close_only. reflexivity.
Defined.

Lemma pct_zero_nan (b : pyfloat) :
  b = NaN \/ b = Fin 0 -> fsub (fdiv (Fin 0) b) (Fin 1) = NaN.
Proof.
  intros [-> | ->]; [reflexivity |].
  cbn. rewrite (Reqb_true 0 0) by reflexivity. reflexivity.
Qed.

Lemma dropna_pct_change_zeros (k : nat) (s : Series.Series) :
  (1 <= k)%nat -> (forall x, In x s -> x = Fin 0) ->
  Series.dropna (Series.pct_change k s) = [].
Proof.
  intros K. induction s as [| a s IH] using rev_ind; intros Z0.
  - reflexivity.
  - assert (Zs : forall x, In x s -> x = Fin 0)
      by (intros x I; apply Z0, in_or_app; left; exact I).
    assert (Za : a = Fin 0)
      by (apply Z0, in_or_app; right; left; reflexivity).
    destruct (nth_error (repeat NaN k ++ s)%list (List.length s)) as [b |] eqn:Eb.
    + rewrite (SeriesFacts.pct_change_snoc k s a b K Eb).
      rewrite SeriesFacts.dropna_snoc, (IH Zs), Za.
      rewrite pct_zero_nan; [reflexivity |].
      apply nth_error_In in Eb. apply in_app_or in Eb.
      destruct Eb as [I | I]; [left | right; apply Zs, I].
      apply repeat_spec in I. exact I.
    + apply nth_error_None in Eb. rewrite length_app, repeat_length in Eb. lia.
Qed.

(** X7: a table whose closes are all zero has no defined change at all:
    both [dropna] results are empty and the recent trend is the final 0.0 of
    the code; with two records or more the score is then the one of the
    signal alone. *)
Theorem zero_closes_zero_trend
    (stock_data : DataFrame) (nakshatra_data : Signal) :
  (forall r, In r stock_data -> Close r = 0%R) ->
  recent_trend stock_data = Fin 0 /\
  combined_score stock_data nakshatra_data =
    Fin (combinedScore 0 (nakshatra_index nakshatra_data)
           (Py.len (transitions nakshatra_data))).
Proof.
  intros Z0.
  assert (Zc : forall x, In x (close_column stock_data) -> x = Fin 0).
  { intros x I. unfold close_column in I. apply in_map_iff in I.
    destruct I as (r & <- & I). rewrite (Z0 r I). reflexivity. }
  assert (T : recent_trend stock_data = Fin 0).
  { unfold recent_trend, recent_trend_try.
    rewrite !dropna_pct_change_zeros by (lia || exact Zc). reflexivity. }
  split; [exact T |]. rewrite combined_score_cases, T. reflexivity.
Qed.

Lemma zero_closes_zero_trend_witness :
  recent_trend zero_bars = Fin 0 /\
  combined_score zero_bars jan27_signal = Fin (combinedScore 0 0 1).
Proof.
  apply (zero_closes_zero_trend zero_bars jan27_signal).
  intros r I. cbn in I.
  destruct I as [<- | [<- | [<- | []]]]; reflexivity.
Defined.

Lemma pct_positive_over_zero (a : R) :
  (0 < a)%R -> fsub (fdiv (Fin a) (Fin 0)) (Fin 1) = PInf.
Proof.
  intros H. cbn. unfold signed_inf.
  rewrite (Reqb_true 0 0), (Reqb_false a 0), (Rltb_true 0 a) by lra.
  reflexivity.
Qed.

Lemma recent_trend_long_zero (df : DataFrame) (ra rb : OHLC) :
  (5 <= List.length df)%nat ->
  nth_error df (List.length df - 5) = Some rb ->
  Close rb = 0%R -> (0 < Close ra)%R ->
  recent_trend (df ++ [ra])%list = PInf.
Proof.
  intros L H Z0 P. unfold recent_trend, recent_trend_try.
  rewrite TrendFacts.close_column_snoc.
  rewrite (SeriesFacts.dropna_pct_change_last 5 _ _ (Fin (Close rb))).
  - rewrite Z0, (pct_positive_over_zero _ P).
    destruct (SeriesFacts.iloc_last
                (Series.dropna (Series.pct_change 5 (close_column df))) PInf)
      as [-> ->].
    reflexivity.
  - lia.
  - rewrite TrendFacts.length_close_column. exact L.
  - rewrite TrendFacts.length_close_column. unfold close_column.
    rewrite nth_error_map, H. reflexivity.
  - rewrite Z0, (pct_positive_over_zero _ P). reflexivity.
Qed.



Lemma pair_trend (a b : R) :
  a <> 0%R -> recent_trend [bar a; bar b] = Fin ((b - a) / a).
Proof.
  intros H.
  apply (TrendFacts.recent_trend_short [bar a] (bar b) (bar a)).
  - cbn. lia.
  - reflexivity.
  - exact H.
Qed.

Lemma len_nonneg {A : Type} (l : list A) : (0 <= IZR (Py.len l))%R.
Proof. apply IZR_le. unfold Py.len. lia. Qed.

Section ScoreBounds.

Variable format_pct2 : pyfloat -> string.
Variable stock_data : DataFrame.
Variable nakshatra_data : Signal.
Hypothesis enough : 2 <= Py.len stock_data.

(** The direction and the confidence, read off a finite score. *)
Lemma finite_score_prediction (x : R) :
  combined_score stock_data nakshatra_data = Fin x ->
  let p := generate_prediction format_pct2 (Some stock_data) nakshatra_data in
  direction p =
    (if Rltb 0.015 x then "BULLISH 📈"
     else if Rltb x (-0.015) then "BEARISH 📉" else "NEUTRAL ➡️") /\
  confidence p = Fin (Rmin (Rmax (Rabs x * 1000 + 50) 50) 90).
Proof.
  intros E p. subst p.
  rewrite (direction_of_score format_pct2 _ nakshatra_data enough),
    (confidence_of_score format_pct2 _ nakshatra_data enough), E.
  split; reflexivity.
Qed.

Lemma infinite_score_prediction :
  combined_score stock_data nakshatra_data = PInf \/
  combined_score stock_data nakshatra_data = NInf ->
  let p := generate_prediction format_pct2 (Some stock_data) nakshatra_data in
  (direction p = "BULLISH 📈" \/ direction p = "BEARISH 📉") /\
  confidence p = Fin 90.
Proof.
  intros E p. subst p.
  rewrite (direction_of_score format_pct2 _ nakshatra_data enough),
    (confidence_of_score format_pct2 _ nakshatra_data enough).
  destruct E as [-> | ->]; rewrite raw_confidence_cases; cbn; tauto.
Qed.

Lemma score_shape :
  (exists x, combined_score stock_data nakshatra_data = Fin x) \/
  combined_score stock_data nakshatra_data = PInf \/
  combined_score stock_data nakshatra_data = NInf.
Proof.
  rewrite combined_score_cases.
  pose proof (TrendFacts.recent_trend_not_nan stock_data) as N.
  destruct (recent_trend stock_data); [left; eexists; reflexivity | tauto ..
                                      | discriminate N].
Qed.

End ScoreBounds.

Lemma two_bars_jan27_score :
  combined_score two_bars jan27_signal = Fin 0.0414.
Proof.
  rewrite combined_score_cases, two_bars_trend. unfold combinedScore.
  change (nakshatra_index jan27_signal) with 0.
  change (Py.len (transitions jan27_signal)) with 1.
  replace (IZR 0 * 2 * PI / 27)%R with 0%R by lra.
  rewrite sin_0. f_equal. lra.
Qed.

Lemma two_bars_jan27_bullish :
  direction (generate_prediction two_decimals (Some two_bars) jan27_signal) =
  "BULLISH 📈".
Proof.
  assert (L : 2 <= Py.len two_bars) by (cbn; lia).
  destruct (finite_score_prediction two_decimals _ _ L _ two_bars_jan27_score)
    as [-> _].
  rewrite Rltb_true by lra. reflexivity.
Qed.



(** X10: with two records or more and a finite score, the lower bound of
    the clamp is never the active one (the raw confidence is at least 50):
    the confidence is |score|*1000 + 50 while |score| is below 0.04, and
    90.0 from 0.04 on. *)
Theorem confidence_saturation
    (format_pct2 : pyfloat -> string) (stock_data : DataFrame)
    (nakshatra_data : Signal) (x : R) :
  2 <= Py.len stock_data ->
  combined_score stock_data nakshatra_data = Fin x ->
  let p := generate_prediction format_pct2 (Some stock_data) nakshatra_data in
  confidence p = Fin (Rmin (Rabs x * 1000 + 50) 90) /\
  (Rabs x < 0.04 -> confidence p = Fin (Rabs x * 1000 + 50))%R /\
  (0.04 <= Rabs x -> confidence p = Fin 90)%R.
Proof.
  intros L E p. subst p.
  destruct (finite_score_prediction format_pct2 _ _ L x E) as [_ ->].
  pose proof (Rabs_pos x) as P.
  assert (M : Rmax (Rabs x * 1000 + 50) 50 = (Rabs x * 1000 + 50)%R).
  { unfold Rmax. destruct (Rle_dec _ 50); lra. }
  rewrite M. split; [reflexivity |].
  split; intros H; f_equal; unfold Rmin; destruct (Rle_dec _ 90); lra.
Qed.

Lemma confidence_saturation_witness :
  confidence (generate_prediction two_decimals (Some two_bars) jan27_signal) =
  Fin 90.
Proof.
  destruct (confidence_saturation two_decimals two_bars jan27_signal 0.0414)
    as (_ & _ & H).
  - cbn. lia.
  - exact two_bars_jan27_score.
  - apply H. unfold Rabs. destruct (Rcase_abs 0.0414); lra.
Defined.

(** X11: the direction is monotone in the recent trend: for one signal
    and two tables with two records or more and finite trends, the table
    with the larger trend is BULLISH whenever the other is, and the table
    with the smaller trend is BEARISH whenever the other is. *)
Theorem direction_monotone_in_trend
    (format_pct2 : pyfloat -> string) (df1 df2 : DataFrame)
    (nakshatra_data : Signal) (r1 r2 : R) :
  2 <= Py.len df1 -> 2 <= Py.len df2 ->
  recent_trend df1 = Fin r1 -> recent_trend df2 = Fin r2 ->
  (r1 <= r2)%R ->
  let p1 := generate_prediction format_pct2 (Some df1) nakshatra_data in
  let p2 := generate_prediction format_pct2 (Some df2) nakshatra_data in
  (direction p1 = "BULLISH 📈" -> direction p2 = "BULLISH 📈") /\
  (direction p2 = "BEARISH 📉" -> direction p1 = "BEARISH 📉").
Proof.
  intros L1 L2 T1 T2 Hr p1 p2. subst p1 p2.
  assert (E1 := combined_score_cases df1 nakshatra_data).
  assert (E2 := combined_score_cases df2 nakshatra_data).
  rewrite T1 in E1. rewrite T2 in E2.
  destruct (finite_score_prediction format_pct2 _ _ L1 _ E1) as [-> _].
  destruct (finite_score_prediction format_pct2 _ _ L2 _ E2) as [-> _].
  unfold combinedScore, Rltb.
  set (s := (sin _ * 0.28)%R). set (t := (IZR _ * 0.12 * 0.27)%R).
  destruct (Rlt_dec 0.015 (r1 * 0.45 + s + t));
    destruct (Rlt_dec 0.015 (r2 * 0.45 + s + t));
    destruct (Rlt_dec (r1 * 0.45 + s + t) (-0.015));
    destruct (Rlt_dec (r2 * 0.45 + s + t) (-0.015));
    split; intros H; try reflexivity; try discriminate H; lra.
Qed.

Lemma surge_bars_trend : recent_trend surge_bars = Fin ((170 - 100) / 100).
Proof. apply pair_trend. lra. Qed.

Lemma crash_bars_trend : recent_trend crash_bars = Fin ((10 - 100) / 100).
Proof. apply pair_trend. lra. Qed.

Lemma direction_monotone_in_trend_witness :
  direction (generate_prediction two_decimals (Some surge_bars) jan27_signal) =
  "BULLISH 📈".
Proof.
  refine (proj1 (direction_monotone_in_trend two_decimals two_bars surge_bars
                   jan27_signal _ _ _ _ two_bars_trend surge_bars_trend _) _).
  - cbn. lia.
  - cbn. lia.
  - lra.
  - apply two_bars_jan27_bullish.
Defined.

(** X12: a large move decides the direction whatever the date: with two
    records or more, a finite trend of 0.66 or more is BULLISH for every
    signal, and a finite trend of -0.8 or less is BEARISH for every signal
    with at most two transitions. *)
Theorem large_trend_decides
    (format_pct2 : pyfloat -> string) (stock_data : DataFrame)
    (nakshatra_data : Signal) (r : R) :
  2 <= Py.len stock_data ->
  recent_trend stock_data = Fin r ->
  let p := generate_prediction format_pct2 (Some stock_data) nakshatra_data in
  (0.66 <= r -> direction p = "BULLISH 📈")%R /\
  ((r <= -0.8)%R -> Py.len (transitions nakshatra_data) <= 2 ->
   direction p = "BEARISH 📉").
Proof.
  intros L T p. subst p.
  assert (E := combined_score_cases stock_data nakshatra_data).
  rewrite T in E.
  destruct (finite_score_prediction format_pct2 _ _ L _ E) as [-> _].
  unfold combinedScore.
  pose proof (SIN_bound (IZR (nakshatra_index nakshatra_data) * 2 * PI / 27))
    as [Sl Su].
  pose proof (len_nonneg (transitions nakshatra_data)) as N.
  split.
  - intros H. rewrite Rltb_true by lra. reflexivity.
  - intros H K. apply IZR_le in K.
    rewrite Rltb_false, Rltb_true by lra. reflexivity.
Qed.

Lemma large_trend_decides_witness :
  direction (generate_prediction two_decimals (Some surge_bars) jan27_signal)
    = "BULLISH 📈" /\
  direction (generate_prediction two_decimals (Some crash_bars) jan27_signal)
    = "BEARISH 📉".
Proof.
  split.
  - refine (proj1 (large_trend_decides two_decimals surge_bars jan27_signal
                     _ _ surge_bars_trend) _).
    + cbn. lia.
    + lra.
  - refine (proj2 (large_trend_decides two_decimals crash_bars jan27_signal
                     _ _ crash_bars_trend) _ _).
    + cbn. lia.
    + lra.
    + cbn. lia.
Defined.

Lemma pct5_defined_at_last (df : DataFrame) (ra rb : OHLC) :
  (5 <= List.length df)%nat ->
  nth_error df (List.length df - 5) = Some rb ->
  Close rb <> 0%R ->
  (Py.len (Series.dropna (Series.pct_change 5 (close_column (df ++ [ra])%list)))
   >? 0) = true.
Proof.
  intros L H Z0. rewrite TrendFacts.close_column_snoc.
  rewrite (SeriesFacts.dropna_pct_change_last 5 _ _ (Fin (Close rb))).
  - apply SeriesFacts.iloc_last.
  - lia.
  - rewrite TrendFacts.length_close_column. exact L.
  - rewrite TrendFacts.length_close_column. unfold close_column.
    rewrite nth_error_map, H. reflexivity.
  - rewrite (TrendFacts.pct_fin _ _ Z0). reflexivity.
Qed.

Lemma trend_skips_last (df : DataFrame) (ra rb : OHLC) :
  (5 <= List.length df)%nat ->
  nth_error df (List.length df - 5) = Some rb ->
  Close rb = 0%R -> Close ra = 0%R ->
  (Py.len (Series.dropna (Series.pct_change 5 (close_column df))) >? 0) = true ->
  recent_trend (df ++ [ra])%list = recent_trend df.
Proof.
  intros L H Zb Za P. unfold recent_trend, recent_trend_try.
  rewrite TrendFacts.close_column_snoc.
  rewrite (SeriesFacts.pct_change_snoc 5 _ _ (Fin (Close rb))).
  - rewrite SeriesFacts.dropna_snoc, Za, Zb.
    rewrite pct_zero_nan by (right; reflexivity).
    cbn [isnan]. rewrite app_nil_r, P. reflexivity.
  - lia.
  - rewrite nth_error_app2 by (rewrite repeat_length, TrendFacts.length_close_column; lia).
    rewrite repeat_length, TrendFacts.length_close_column. unfold close_column.
    rewrite nth_error_map, H. reflexivity.
Qed.



(** ** The data fetch *)

Section FetchFacts.

Variable download : string -> string -> string -> Download.


End FetchFacts.


(** No provider symbol of the table is itself a display name. *)
Lemma resolve_idempotent (script : string) :
  let ticker := dict_get script_mapping script script in
  dict_get script_mapping ticker ticker = ticker.
Proof.
  cbv zeta. unfold script_mapping. cbn [dict_get].
  repeat match goal with
         | |- context [String.eqb ?k script] =>
             destruct (String.eqb_spec k script) as [<- | ?];
             [reflexivity |]
         end.
  cbn [dict_get].
  repeat match goal with
         | H : ?k <> script |- context [String.eqb ?k script] =>
             destruct (String.eqb_spec k script) as [? | _];
             [contradiction |]
         end.
  reflexivity.
Qed.



(** ** The analysis run of [main] *)

Lemma direction_cases
    (format_pct2 : pyfloat -> string) (stock_data : option DataFrame)
    (nakshatra_data : Signal) :
  let d := direction
             (generate_prediction format_pct2 stock_data nakshatra_data) in
  d = "BULLISH 📈" \/ d = "BEARISH 📉" \/ d = "NEUTRAL ➡️".
Proof.
  cbv zeta. unfold generate_prediction.
  destruct stock_data as [df |]; [| cbn; tauto].
  destruct (Py.len df <? 2); [cbn; tauto |].
  cbn [direction].
  destruct (fgt _ _); [tauto |]. destruct (flt _ _); tauto.
Qed.

(** X15: the substring tests of [main] pick the style class that matches
    the direction of every prediction the scoring can return: positive
    exactly for BULLISH, negative exactly for BEARISH, neutral exactly for
    NEUTRAL; the insufficient-data prediction is styled neutral. *)
Theorem direction_class_matches
    (format_pct2 : pyfloat -> string) (stock_data : option DataFrame)
    (nakshatra_data : Signal) :
  let d := direction
             (generate_prediction format_pct2 stock_data nakshatra_data) in
  (direction_class d = "prediction-positive" <-> d = "BULLISH 📈") /\
  (direction_class d = "prediction-negative" <-> d = "BEARISH 📉") /\
  (direction_class d = "prediction-neutral" <-> d = "NEUTRAL ➡️") /\
  direction_class (direction insufficient) = "prediction-neutral".
Proof.
  intros d.
  destruct (direction_cases format_pct2 stock_data nakshatra_data)
    as [E | [E | E]]; fold d in E; rewrite E;
    repeat split; intros H; try reflexivity;
    try discriminate H; vm_compute in H; discriminate H.
Qed.

Section AnalysisFacts.

Variable download : string -> string -> string -> Download.
Variable format_pct2 : pyfloat -> string.


End AnalysisFacts.

